(** * react-bootcamp: the tutorial components, embedded and verified

    The repository is a sequence of annotated React/TypeScript examples
    ([README.tsx], [index.tsx], [01-Sherlock.tsx] ... [05-ThinkingInReact.tsx]).
    Every component is translated below into a Rocq function over a small
    model of the JavaScript values it touches ([Js]), of the element
    descriptions it returns and of the hook/effect contract it relies on
    ([React]), and of the host document it is mounted on ([Dom]). *)

From Stdlib Require Import ZArith List String Ascii Bool Lia DecimalString.
Import ListNotations.

Open Scope string_scope.
Open Scope Z_scope.

Set Warnings "-register-all".

(* ================================================================== *)
(** * JavaScript values *)
(* ================================================================== *)

Module Js.

(** A JavaScript [number] is an IEEE-754 double.  The examples only count
    solved cases and clicks, so the model keeps the finite integer-valued
    doubles and [NaN] (which [undefined + 1] produces).  [Int z] stands for
    the double whose value is the integer [z]. *)
Inductive number : Type :=
| Int (z : Z)
| NaN.

(** Every integer of magnitude up to [2^53] is a double; above it some are
    not. *)
Definition MAX_EXACT : Z := 2 ^ 53.

(** Rounding of an integer to the nearest double, ties to even: above
    [2^53] a double keeps only the 53 leading bits. *)
Definition roundToDouble (z : Z) : Z :=
  let e := Z.max 0 (Z.log2 (Z.abs z) - 52) in
  let ulp := 2 ^ e in
  let q := z / ulp in
  let r := z mod ulp in
  match 2 * r ?= ulp with
  | Lt => q * ulp
  | Gt => (q + 1) * ulp
  | Eq => if Z.even q then q * ulp else (q + 1) * ulp
  end.

(** [a + b] on numbers. *)
Definition add (a b : number) : number :=
  match a, b with
  | Int x, Int y => Int (roundToDouble (x + y))
  | _, _ => NaN
  end.

(** [a > b] on numbers: every comparison with [NaN] is [false]. *)
Definition gt (a b : number) : bool :=
  match a, b with
  | Int x, Int y => y <? x
  | _, _ => false
  end.

(** The decimal digits of an integer. *)
Definition decimal (z : Z) : string := NilZero.string_of_int (Z.to_int z).

Definition digitCount (x : Z) : Z := Z.of_nat (String.length (decimal x)).

(** The [k]-digit integer [s], if there is one, for which [s * 10^(n-k)]
    reads back as the double [x]; of two, the one nearer to [x]. *)
Definition candidate (x n k : Z) : option Z :=
  let scale := 10 ^ (n - k) in
  let lo := x / scale in
  let hi := lo + 1 in
  let r := x mod scale in
  let okLo := roundToDouble (lo * scale) =? x in
  let okHi := (hi <? 10 ^ k) && (roundToDouble (hi * scale) =? x) in
  match okLo, okHi with
  | true, true =>
      match 2 * r ?= scale with
      | Lt => Some lo
      | Gt => Some hi
      | Eq => Some (if Z.even lo then lo else hi)
      end
  | true, false => Some lo
  | false, true => Some hi
  | false, false => None
  end.

(** The shortest digit string that reads back as [x], tried from [k] digits
    up; a double never needs more than 17. *)
Fixpoint shortest (tries : nat) (x n k : Z) : Z * Z :=
  match tries with
  | O => (x, n)
  | S tries' =>
      if n <? k then (x, n)
      else match candidate x n k with
           | Some s => (s, k)
           | None => shortest tries' x n (k + 1)
           end
  end.

Fixpoint zeros (n : nat) : string :=
  match n with
  | O => ""
  | S n' => "0" ++ zeros n'
  end.

(** [Number::toString] for a positive integer-valued double: up to [2^53]
    every digit is significant; above, the shortest digits that read back
    as the same double, padded with zeros, and from [10^21] in exponent
    notation. *)
Definition positiveToString (x : Z) : string :=
  if x <=? 2 ^ 53 then decimal x
  else
    let d := digitCount x in
    let '(s, k, n) :=
      if roundToDouble (10 ^ d) =? x then (1, 1, d + 1)
      else let (s, k) := shortest 17 x d 1 in (s, k, d) in
    let digits := decimal s in
    if n <=? 21 then digits ++ zeros (Z.to_nat (n - k))
    else
      match digits with
      | String first rest =>
          String first (if k =? 1 then "" else "." ++ rest)
            ++ "e+" ++ decimal (n - 1)
      | EmptyString => ""
      end.

(** [String(n)], as a template literal applies it. *)
Definition numberToString (n : number) : string :=
  match n with
  | Int z =>
      let x := roundToDouble z in
      if x <? 0 then "-" ++ positiveToString (- x) else positiveToString x
  | NaN => "NaN"
  end.

(** A value of static type [number] that may be [undefined] at run time
    (an optional prop, or a state field initialised from one). *)
Inductive optnumber : Type :=
| undefined
| Num (n : number).

(** [ToNumber]: [undefined] becomes [NaN]. *)
Definition ToNumber (v : optnumber) : number :=
  match v with
  | undefined => NaN
  | Num n => n
  end.

(** [String(v)] for a possibly undefined number. *)
Definition ToString (v : optnumber) : string :=
  match v with
  | undefined => "undefined"
  | Num n => numberToString n
  end.

(** A default parameter value [x = d]: used exactly when the argument is
    [undefined]. *)
Definition orDefault (d : number) (v : optnumber) : number :=
  match v with
  | undefined => d
  | Num n => n
  end.

(** A value of static type [boolean] that may be [undefined] at run time. *)
Inductive optboolean : Type :=
| undefinedB
| Bool (b : bool).

(** [ToBoolean]: [undefined] is falsy. *)
Definition ToBoolean (v : optboolean) : bool :=
  match v with
  | undefinedB => false
  | Bool b => b
  end.

(** [!v]. *)
Definition not (v : optboolean) : bool := negb (ToBoolean v).

(** [Object.is] on numbers, the comparison the framework applies to
    dependency arrays and to state updates: [NaN] is the same value as
    [NaN]. *)
Definition sameValue (a b : number) : bool :=
  match a, b with
  | Int x, Int y => x =? y
  | NaN, NaN => true
  | _, _ => false
  end.

(** [Object.is] on a boolean that may be [undefined]. *)
Definition sameBoolean (a b : optboolean) : bool :=
  match a, b with
  | undefinedB, undefinedB => true
  | Bool x, Bool y => Bool.eqb x y
  | _, _ => false
  end.

(** What this code base can be seen to throw. *)
Inductive Error : Type :=
| ReferenceError (name : string)
| RangeError
| TargetContainerIsNotADomElement
| ObjectsAreNotValidAsAReactChild (keys : list string).

(** How an evaluation ends: with a value, or by throwing. *)
Inductive Completion (A : Type) : Type :=
| Normal (value : A)
| Throw (error : Error).
Arguments Normal {A} value.
Arguments Throw {A} error.

Definition completes {A} (c : Completion A) : bool :=
  match c with
  | Normal _ => true
  | Throw _ => false
  end.

End Js.

(* ================================================================== *)
(** * The host: document, console and timers *)
(* ================================================================== *)

Module Dom.

(** A node of the live document tree. *)
Inductive Node : Type :=
| TextNode (data : string)
| ElementNode (tagName : string) (attributes : list (string * string))
    (childNodes : list Node).

(** Attribute lookup, first binding wins. *)
Fixpoint getAttribute (attributes : list (string * string)) (name : string)
  : option string :=
  match attributes with
  | [] => None
  | (k, v) :: rest => if String.eqb k name then Some v else getAttribute rest name
  end.

Definition hasId (id : string) (attributes : list (string * string)) : bool :=
  match getAttribute attributes "id" with
  | Some v => String.eqb v id
  | None => false
  end.

(** [document.getElementById(id)] below one node: the first element in
    tree order whose [id] attribute is [id], or [null] ([None]). *)
Fixpoint findById (id : string) (n : Node) : option Node :=
  match n with
  | TextNode _ => None
  | ElementNode _ attributes childNodes =>
      if hasId id attributes then Some n
      else
        (fix first (l : list Node) : option Node :=
           match l with
           | [] => None
           | c :: l' =>
               match findById id c with
               | Some r => Some r
               | None => first l'
               end
           end) childNodes
  end.

(** What a pending timer does when it expires. *)
Inductive Task : Type :=
| Log (message : string).

Record Timer : Type := {
  timerId : nat;
  delay : Z;
  task : Task;
}.

(** The part of the browser the examples talk to: the document (its
    title and its tree), the console and the pending timers. *)
Record World : Type := {
  title : string;
  documentElement : Node;
  console : list string;
  timers : list Timer;
  nextTimerId : nat;
}.

Definition getElementById (w : World) (id : string) : option Node :=
  findById id (documentElement w).

(** [document.title = s]. *)
Definition setTitle (s : string) (w : World) : World :=
  {| title := s; documentElement := documentElement w;
     console := console w; timers := timers w;
     nextTimerId := nextTimerId w |}.

(** [console.log(s)]. *)
Definition consoleLog (s : string) (w : World) : World :=
  {| title := title w; documentElement := documentElement w;
     console := (console w ++ [s])%list; timers := timers w;
     nextTimerId := nextTimerId w |}.

(** [setTimeout(task, delay)]: registers a pending timer and returns its
    fresh id. *)
Definition setTimeout (t : Task) (ms : Z) (w : World) : nat * World :=
  (nextTimerId w,
   {| title := title w; documentElement := documentElement w;
      console := console w;
      timers :=
        (timers w
           ++ [{| timerId := nextTimerId w; delay := ms; task := t |}])%list;
      nextTimerId := S (nextTimerId w) |}).

(** [clearTimeout(id)]: forgets the timer; a no-op when it is not pending. *)
Definition clearTimeout (id : nat) (w : World) : World :=
  {| title := title w; documentElement := documentElement w;
     console := console w;
     timers := filter (fun t => negb (Nat.eqb (timerId t) id)) (timers w);
     nextTimerId := nextTimerId w |}.

Definition runTask (t : Task) (w : World) : World :=
  match t with
  | Log message => consoleLog message w
  end.

(** The host fires timer [id]: it leaves the pending list and its task
    runs.  Nothing happens when no such timer is pending. *)
Definition fire (id : nat) (w : World) : World :=
  match find (fun t => Nat.eqb (timerId t) id) (timers w) with
  | Some t => runTask (task t) (clearTimeout id w)
  | None => w
  end.

(** A freshly loaded page. *)
Definition load (page : Node) : World :=
  {| title := ""; documentElement := page; console := [];
     timers := []; nextTimerId := 0 |}.

End Dom.

(* ================================================================== *)
(** * The framework: element descriptions, hooks, effects *)
(* ================================================================== *)

Module React.

(** ** Element descriptions

    A react element is a plain object [{type, props}].  [H] is the type of
    the event handlers it carries. *)

Inductive PropValue (H : Type) : Type :=
| PString (s : string)
| PNumber (n : Js.number)
| PStrings (l : list string)
| PStyle (declarations : list (string * string))
| PHandler (h : H)
| PStringUpdater (set : string -> H)
| PStringsUpdater (set : list string -> H).
Arguments PString {H} s.
Arguments PNumber {H} n.
Arguments PStrings {H} l.
Arguments PStyle {H} declarations.
Arguments PHandler {H} h.
Arguments PStringUpdater {H} set.
Arguments PStringsUpdater {H} set.

Inductive Element (H : Type) : Type :=
| Text (s : string)
| NumberChild (n : Js.number)
| ObjectChild (fields : list (string * string))
| Host (tag : string) (props : list (string * PropValue H))
    (children : list (Element H))
| Fragment (children : list (Element H))
| Component (type : string) (key : option string)
    (props : list (string * PropValue H)).
Arguments Text {H} s.
Arguments NumberChild {H} n.
Arguments ObjectChild {H} fields.
Arguments Host {H} tag props children.
Arguments Fragment {H} children.
Arguments Component {H} type key props.

(** A prop by name, first binding wins. *)
Fixpoint getProp {H} (name : string) (props : list (string * PropValue H))
  : option (PropValue H) :=
  match props with
  | [] => None
  | (k, v) :: rest => if String.eqb k name then Some v else getProp name rest
  end.

(** The [onClick] prop of an element, if it has one. *)
Fixpoint onClick {H} (props : list (string * PropValue H)) : option H :=
  match props with
  | [] => None
  | (name, PHandler h) :: rest =>
      if String.eqb name "onClick" then Some h else onClick rest
  | _ :: rest => onClick rest
  end.

Definition hasLabel {H} (label : string) (children : list (Element H)) : bool :=
  match children with
  | [Text s] => String.eqb s label
  | _ => false
  end.

(** The click handler of the first host element (in tree order) whose
    only child is the text [label]. *)
Fixpoint clickTarget {H} (label : string) (e : Element H) : option H :=
  let first :=
    fix first (l : list (Element H)) : option H :=
      match l with
      | [] => None
      | c :: l' =>
          match clickTarget label c with
          | Some h => Some h
          | None => first l'
          end
      end in
  match e with
  | Host _ props children =>
      if hasLabel label children then onClick props else first children
  | Fragment children => first children
  | _ => None
  end.

(** The text the user reads: string and number children, in tree order. *)
Fixpoint textContent {H} (e : Element H) : list string :=
  let all :=
    fix all (l : list (Element H)) : list string :=
      match l with
      | [] => []
      | c :: l' => (textContent c ++ all l')%list
      end in
  match e with
  | Text s => [s]
  | NumberChild n => [Js.numberToString n]
  | Host _ _ children => all children
  | Fragment children => all children
  | _ => []
  end.

Definition eraseProp {H} (p : string * PropValue H) : string * PropValue unit :=
  (fst p,
   match snd p with
   | PString s => PString s
   | PNumber n => PNumber n
   | PStrings l => PStrings l
   | PStyle d => PStyle d
   | PHandler _ => PHandler tt
   | PStringUpdater _ => PStringUpdater (fun _ => tt)
   | PStringsUpdater _ => PStringsUpdater (fun _ => tt)
   end).

(** The static markup of an element: the same tree with every handler
    forgotten. *)
Fixpoint markup {H} (e : Element H) : Element unit :=
  let all :=
    fix all (l : list (Element H)) : list (Element unit) :=
      match l with
      | [] => []
      | c :: l' => markup c :: all l'
      end in
  match e with
  | Text s => Text s
  | NumberChild n => NumberChild n
  | ObjectChild f => ObjectChild f
  | Host tag props children => Host tag (map eraseProp props) (all children)
  | Fragment children => Fragment (all children)
  | Component type key props => Component type key (map eraseProp props)
  end.

Definition propFragments {H} (p : string * PropValue H) : list string :=
  match snd p with
  | PString s => [fst p; s]
  | PNumber n => [fst p; Js.numberToString n]
  | PStrings l => [fst p; String.concat "," l]
  | PStyle d => fst p :: flat_map (fun kv => [fst kv; snd kv]) d
  | PHandler _ => [fst p]
  | PStringUpdater _ => [fst p]
  | PStringsUpdater _ => [fst p]
  end.

(** Every string that occurs in an element description, in tree order:
    types, keys, prop names and values, text. *)
Fixpoint fragments {H} (e : Element H) : list string :=
  let all :=
    fix all (l : list (Element H)) : list string :=
      match l with
      | [] => []
      | c :: l' => (fragments c ++ all l')%list
      end in
  match e with
  | Text s => [s]
  | NumberChild n => [Js.numberToString n]
  | ObjectChild f => flat_map (fun kv => [fst kv; snd kv]) f
  | Host tag props children =>
      (tag :: flat_map propFragments props ++ all children)%list
  | Fragment children => all children
  | Component type key props =>
      (type :: match key with Some k => [k] | None => [] end
            ++ flat_map propFragments props)%list
  end.

(** ** Component names

    A capitalised JSX tag is an identifier: creating the element looks it
    up in the scope of the file, and the renderer later calls what it
    denotes. *)

(** The component names an element description mentions, in the order
    their identifiers are evaluated. *)
Fixpoint componentNames {H} (e : Element H) : list string :=
  match e with
  | Host _ _ children => flat_map componentNames children
  | Fragment children => flat_map componentNames children
  | Component type _ _ => [type]
  | _ => []
  end.

(** The first identifier of a JSX expression that the file does not bind. *)
Definition unbound {H} (bound : list string) (e : Element H) : option string :=
  find (fun name => negb (existsb (String.eqb name) bound)) (componentNames e).

(** Evaluating a JSX expression: a [ReferenceError] for the first unbound
    identifier, the element description otherwise. *)
Definition created {H} (bound : list string) (e : Element H)
  : Js.Completion (Element H) :=
  match unbound bound e with
  | Some name => Js.Throw (Js.ReferenceError name)
  | None => Js.Normal e
  end.

(** What the names in scope denote: components, called with the props of
    the element and run in the page. *)
Definition Scope (H : Type) : Type :=
  string -> option (list (string * PropValue H) -> Dom.World -> Element H).

(** ** Output templates

    A piece of output is built without branching when it is one fixed
    sequence of literal text and interpolated input values. *)
Inductive Part : Type :=
| Lit (s : string)
| Hole (i : nat).

Definition partValue (values : list string) (p : Part) : string :=
  match p with
  | Lit s => s
  | Hole i => nth i values ""
  end.

Fixpoint fill (values : list string) (t : list Part) : string :=
  match t with
  | [] => ""
  | p :: t' => partValue values p ++ fill values t'
  end.

(** ** Event handlers

    What a handler of this code base can do to component state: call an
    updater the framework handed out ([setX(v)], [this.setState(f)]), which
    stores the value and schedules a re-render, or assign to the state
    variable directly, which the framework never notices. *)
Inductive Stmt (C : Type) : Type :=
| Call (c : C)
| Assign (c : C).
Arguments Call {C} c.
Arguments Assign {C} c.

Definition Handler (C : Type) : Type := list (Stmt C).

Definition isCall {C} (s : Stmt C) : bool :=
  match s with
  | Call _ => true
  | Assign _ => false
  end.

(** ** Effects *)

Definition Cleanup : Type := Dom.World -> Dom.World.

(** One [React.useEffect(effect, deps)] call.  [deps = None] is the
    omitted second argument. *)
Record Effect : Type := {
  effect : Dom.World -> Dom.World * option Cleanup;
  deps : option (list Js.number);
}.

(** What one evaluation of a component body yields: the values of its
    state cells, the element description it returns and the effects it
    registered, in call order. *)
Record Rendered (S C : Type) : Type := {
  cells : S;
  view : Element (Handler C);
  effects : list Effect;
}.
Arguments cells {S C} r.
Arguments view {S C} r.
Arguments effects {S C} r.

(** [React.useState(initial)]: the cell's current value, or [initial] on
    the first render, paired with the cell's updater. *)
Definition useState {A C} (initial : A) (cell : option A) (set : A -> C)
  : A * (A -> C) :=
  (match cell with
   | Some current => current
   | None => initial
   end,
   set).

(** A function component.  Its body is evaluated against the hook cells of
    the previous render ([None] on mount) and runs in the browser, where
    the page is there to be read: [body props hooks page].  [write] is what
    an updater call stores in the cells; [unchanged] tells whether the
    value passed to an updater is, by [Object.is], the one its cell already
    holds, in which case the framework ignores the call. *)
Record FunctionComponent (P S C : Type) : Type := {
  body : P -> option S -> Dom.World -> Rendered S C;
  write : C -> S -> S;
  unchanged : C -> S -> bool;
}.
Arguments body {P S C} f.
Arguments write {P S C} f.
Arguments unchanged {P S C} f.

(** A component without hooks. *)
Definition stateless {P} (f : P -> Dom.World -> Element (Handler Empty_set))
  : FunctionComponent P unit Empty_set :=
  {| body := fun props _ page =>
       {| cells := tt; view := f props page; effects := [] |};
     write := fun _ s => s;
     unchanged := fun call _ => match call with end |}.

(** A class component: [constructor] builds [this.state], [render] reads
    [this.props] and [this.state] (and runs in the page like any body); its
    handlers call [this.setState] with an updater function. *)
Record ClassComponent (P S : Type) : Type := {
  constructor : P -> S;
  render : P -> S -> Dom.World -> Element (Handler (S -> S));
}.
Arguments constructor {P S} c.
Arguments render {P S} c.

(** [this.setState] re-renders whatever the updater returns. *)
Definition ofClass {P S} (c : ClassComponent P S)
  : FunctionComponent P S (S -> S) :=
  {| body := fun props prev page =>
       let state := match prev with
                    | Some s => s
                    | None => constructor c props
                    end in
       {| cells := state; view := render c props state page; effects := [] |};
     write := fun updater prevState => updater prevState;
     unchanged := fun _ _ => false |}.

(** Calling a component: its body runs, and the JSX it ends in is
    evaluated with the names the file binds. *)
Definition call {P S C} (bound : list string) (f : FunctionComponent P S C)
  (props : P) (hooks : option S) (page : Dom.World)
  : Js.Completion (Rendered S C) :=
  let r := body f props hooks page in
  match created bound (view r) with
  | Js.Throw error => Js.Throw error
  | Js.Normal _ => Js.Normal r
  end.

(** ** A mounted component *)

Record Slot : Type := {
  lastDeps : option (list Js.number);
  cleanup : option Cleanup;
}.

Record Instance (S C : Type) : Type := {
  state : S;
  shown : Element (Handler C);
  slots : list Slot;
}.
Arguments state {S C} i.
Arguments shown {S C} i.
Arguments slots {S C} i.

Fixpoint sameDeps (a b : list Js.number) : bool :=
  match a, b with
  | [], [] => true
  | x :: a', y :: b' => Js.sameValue x y && sameDeps a' b'
  | _, _ => false
  end.

(** Does the effect run after this render?  Always without a dependency
    array, otherwise when a dependency changed. *)
Definition stale (previous next : option (list Js.number)) : bool :=
  match previous, next with
  | Some p, Some n => negb (sameDeps p n)
  | _, _ => true
  end.

Definition runCleanup (c : option Cleanup) (w : Dom.World) : Dom.World :=
  match c with
  | Some f => f w
  | None => w
  end.

(** First render: every effect runs, in order. *)
Fixpoint mountEffects (es : list Effect) (w : Dom.World)
  : list Slot * Dom.World :=
  match es with
  | [] => ([], w)
  | e :: es' =>
      let (w1, c) := effect e w in
      let (rest, w2) := mountEffects es' w1 in
      ({| lastDeps := deps e; cleanup := c |} :: rest, w2)
  end.

(** Re-render, first pass: the cleanups of the effects about to re-run. *)
Fixpoint cleanupStale (es : list Effect) (old : list Slot) (w : Dom.World)
  : Dom.World :=
  match es, old with
  | e :: es', s :: old' =>
      cleanupStale es' old'
        (if stale (lastDeps s) (deps e) then runCleanup (cleanup s) w else w)
  | _, _ => w
  end.

(** Re-render, second pass: the stale effects run again. *)
Fixpoint rerunStale (es : list Effect) (old : list Slot) (w : Dom.World)
  : list Slot * Dom.World :=
  match es, old with
  | e :: es', s :: old' =>
      if stale (lastDeps s) (deps e) then
        let (w1, c) := effect e w in
        let (rest, w2) := rerunStale es' old' w1 in
        ({| lastDeps := deps e; cleanup := c |} :: rest, w2)
      else
        let (rest, w2) := rerunStale es' old' w in
        (s :: rest, w2)
  | _, _ => ([], w)
  end.

(** What can happen to a mounted component: the user clicks the element
    labelled [label], or the host fires a pending timer. *)
Inductive Event : Type :=
| Click (label : string)
| TimerFires (id : nat).

Section Runtime.
Context {P S C : Type}.
Variable component : FunctionComponent P S C.
Variable props : P.

Definition commit (r : Rendered S C) (old : option (list Slot))
  (w : Dom.World) : Instance S C * Dom.World :=
  match old with
  | None =>
      let (sl, w') := mountEffects (effects r) w in
      ({| state := cells r; shown := view r; slots := sl |}, w')
  | Some previous =>
      let (sl, w') :=
        rerunStale (effects r) previous
          (cleanupStale (effects r) previous w) in
      ({| state := cells r; shown := view r; slots := sl |}, w')
  end.

Definition mount (w : Dom.World) : Instance S C * Dom.World :=
  commit (body component props None w) None w.

Definition rerender (s : S) (old : list Slot) (w : Dom.World)
  : Instance S C * Dom.World :=
  commit (body component props (Some s) w) (Some old) w.

(** Runs a handler.  An updater call whose value is the one its cell
    already holds is ignored; any other stores its value and schedules a
    re-render.  A direct assignment stores its value and schedules
    nothing. *)
Fixpoint execute (h : Handler C) (s : S) (scheduled : bool) : S * bool :=
  match h with
  | [] => (s, scheduled)
  | Call c :: h' =>
      if unchanged component c s then execute h' s scheduled
      else execute h' (write component c s) true
  | Assign c :: h' => execute h' (write component c s) scheduled
  end.

Definition dispatch (h : Handler C) (i : Instance S C) (w : Dom.World)
  : Instance S C * Dom.World :=
  let (s, scheduled) := execute h (state i) false in
  if scheduled then rerender s (slots i) w
  else ({| state := s; shown := shown i; slots := slots i |}, w).

Definition step (ev : Event) (iw : Instance S C * Dom.World)
  : Instance S C * Dom.World :=
  match ev with
  | Click label =>
      match clickTarget label (shown (fst iw)) with
      | Some h => dispatch h (fst iw) (snd iw)
      | None => iw
      end
  | TimerFires id => (fst iw, Dom.fire id (snd iw))
  end.

(** The component after mounting in [w] and handling [events] in order. *)
Definition run (events : list Event) (w : Dom.World)
  : Instance S C * Dom.World :=
  fold_left (fun iw ev => step ev iw) events (mount w).

(** Unmounting runs every pending cleanup. *)
Definition unmount (iw : Instance S C * Dom.World) : Dom.World :=
  fold_left (fun w s => runCleanup (cleanup s) w) (slots (fst iw)) (snd iw).

End Runtime.

End React.

Import React.

(* ================================================================== *)
(** * 01-Sherlock.tsx *)
(* ================================================================== *)

Module Sherlock01.

Definition Sherlock (_ : unit) (page : Dom.World)
  : Element (Handler Empty_set) :=
  Host "div" [] [Text "Hi, My name is Sherlock Holmes. I've solved 27 cases."].

End Sherlock01.

(* ================================================================== *)
(** * 02-Detective.tsx *)
(* ================================================================== *)

Module Detective02.

Record IProps : Type := {
  name : string;
  casesSolved : Js.number;
}.

Definition Detective (props : IProps) (page : Dom.World)
  : Element (Handler Empty_set) :=
  let name := name props in
  let casesSolved := casesSolved props in
  Host "div" []
    [Text ("I'm " ++ name ++ ". I've solved "
             ++ Js.numberToString casesSolved ++ " cases.")].

Record IDetective : Type := {
  detectiveName : string;
  detectiveCasesSolved : Js.number;
}.

Definition DetectivesList (_ : unit) (page : Dom.World)
  : Element (Handler Empty_set) :=
  let detectives : list IDetective :=
    [ {| detectiveName := "Sherlock Holmes"; detectiveCasesSolved := Js.Int 27 |};
      {| detectiveName := "CID Daya"; detectiveCasesSolved := Js.Int 0 |} ] in
  Host "div" []
    (map (fun detective =>
            Component "Detective" (Some (detectiveName detective))
              [ ("name", PString (detectiveName detective));
                ("casesSolved", PNumber (detectiveCasesSolved detective)) ])
         detectives).

(** The props object of a [<Detective />] element, read at the type
    [IProps] the file declares for it. *)
Definition ofProps {H} (props : list (string * PropValue H)) : IProps :=
  {| name := match getProp "name" props with
             | Some (PString s) => s
             | _ => "undefined"
             end;
     casesSolved := match getProp "casesSolved" props with
                    | Some (PNumber n) => n
                    | _ => Js.NaN
                    end |}.

(** The components the file's JSX can name: the two it defines.  The file
    imports nothing but the framework. *)
Definition scope : Scope (Handler Empty_set) :=
  fun type =>
    if String.eqb type "Detective" then
      Some (fun props page => Detective (ofProps props) page)
    else if String.eqb type "DetectivesList" then
      Some (fun _ page => DetectivesList tt page)
    else None.

End Detective02.

(* ================================================================== *)
(** * 03-DetectiveInTheField.tsx *)
(* ================================================================== *)

Module DetectiveInTheField03.

Record IProps : Type := {
  name : string;
  casesSolvedSoFar : Js.optnumber;
}.

(** The updater of the single state cell. *)
Inductive Update : Type :=
| SetCasesSolved (value : Js.number).

Definition DetectiveInTheField (props : IProps) (hooks : option Js.number)
  (page : Dom.World) : Rendered Js.number Update :=
  let name := name props in
  let casesSolvedSoFar := Js.orDefault (Js.Int 0) (casesSolvedSoFar props) in
  let '(casesSolved, setCasesSolved) :=
    useState casesSolvedSoFar hooks SetCasesSolved in
  let incrementCasesSolved : Handler Update :=
    [Call (setCasesSolved (Js.add casesSolved (Js.Int 1)))] in
  {| cells := casesSolved;
     view :=
       Fragment
         [ Host "div" []
             [ Text ("I'm " ++ name ++ ".");
               Host "br" [] [];
               Text (if Js.gt casesSolved (Js.Int 0)
                     then "I've solved " ++ Js.numberToString casesSolved ++ " "
                          ++ (if Js.gt casesSolved (Js.Int 1) then "cases" else "case")
                          ++ "."
                     else "I'm a detective in the making.") ];
           Host "br" [] [];
           Host "button" [("onClick", PHandler incrementCasesSolved)]
             [Text "Solve this case"] ];
     effects := [] |}.

Definition DetectiveInTheField_component
  : FunctionComponent IProps Js.number Update :=
  {| body := DetectiveInTheField;
     write := fun call _ => match call with SetCasesSolved value => value end;
     unchanged := fun call casesSolved =>
       match call with SetCasesSolved value => Js.sameValue value casesSolved end |}.

(** [casesSolved] is declared [number]; the constructor stores the prop
    as it comes, so it holds [undefined] when the prop is omitted. *)
Record IState : Type := {
  casesSolved : Js.optnumber;
}.

Definition incrementCasesSolved : Handler (IState -> IState) :=
  [Call (fun prevState =>
           {| casesSolved :=
                Js.Num (Js.add (Js.ToNumber (casesSolved prevState)) (Js.Int 1)) |})].

Definition DetectiveInTheFieldClass : ClassComponent IProps IState :=
  {| constructor := fun props => {| casesSolved := casesSolvedSoFar props |};
     render := fun props state page =>
       let name := name props in
       let casesSolved := casesSolved state in
       Fragment
         [ Host "div" []
             [ Text ("I'm " ++ name ++ ".");
               Host "br" [] [];
               Text (if Js.gt (Js.ToNumber casesSolved) (Js.Int 0)
                     then "I've solved " ++ Js.ToString casesSolved ++ " "
                          ++ (if Js.gt (Js.ToNumber casesSolved) (Js.Int 1)
                              then "cases" else "case")
                          ++ "."
                     else "I'm a detective in the making.") ];
           Host "br" [] [];
           Host "button" [("onClick", PHandler incrementCasesSolved)]
             [Text "Solve this case"] ] |}.

End DetectiveInTheField03.

(* ================================================================== *)
(** * 04-Hooks.tsx *)
(* ================================================================== *)

Module Hooks04.

(** The three state cells of [Counter], in call order. *)
Record CounterCells : Type := {
  count : Js.number;
  searchKey : string;
  filter : string;
}.

Inductive CounterUpdate : Type :=
| SetCount (value : Js.number)
| SetSearchKey (value : string)
| SetFilter (value : string).

Definition Counter (_ : unit) (hooks : option CounterCells)
  (page : Dom.World) : Rendered CounterCells CounterUpdate :=
  let '(count, setCount) :=
    useState (Js.Int 0) (option_map count hooks) SetCount in
  let '(searchKey, setSearchKey) :=
    useState "" (option_map searchKey hooks) SetSearchKey in
  let '(filter, setFilter) :=
    useState "" (option_map filter hooks) SetFilter in
  {| cells := {| count := count; searchKey := searchKey; filter := filter |};
     view :=
       Fragment
         [ Host "div" [] [NumberChild count];
           Host "button"
             [("onClick", PHandler [Call (setCount (Js.add count (Js.Int 1)))])]
             [Text "Increment"] ];
     effects := [] |}.

Definition Counter_component
  : FunctionComponent unit CounterCells CounterUpdate :=
  {| body := Counter;
     write := fun call cells =>
       match call with
       | SetCount value =>
           {| count := value; searchKey := searchKey cells; filter := filter cells |}
       | SetSearchKey value =>
           {| count := count cells; searchKey := value; filter := filter cells |}
       | SetFilter value =>
           {| count := count cells; searchKey := searchKey cells; filter := value |}
       end;
     unchanged := fun call cells =>
       match call with
       | SetCount value => Js.sameValue value (count cells)
       | SetSearchKey value => String.eqb value (searchKey cells)
       | SetFilter value => String.eqb value (filter cells)
       end |}.

Inductive CountUpdate : Type :=
| SetCountOnly (value : Js.number).

Definition CounterWithSideEffects (_ : unit) (hooks : option Js.number)
  (page : Dom.World) : Rendered Js.number CountUpdate :=
  let '(count, setCount) := useState (Js.Int 0) hooks SetCountOnly in
  let titleEffect :=
    {| effect := fun w =>
         (Dom.setTitle (Js.numberToString count ++ " clicks") w, None);
       deps := None |} in
  let timerEffect :=
    {| effect := fun w =>
         let (timerId, w') := Dom.setTimeout (Dom.Log "Some useful message") 5000 w in
         (w', Some (Dom.clearTimeout timerId));
       deps := None |} in
  let eachRender :=
    {| effect := fun w => (Dom.consoleLog "Runs on each render" w, None);
       deps := None |} in
  let firstRender :=
    {| effect := fun w => (Dom.consoleLog "Runs only on the first render" w, None);
       deps := Some [] |} in
  let countChanges :=
    {| effect := fun w => (Dom.consoleLog "Runs only when count changes" w, None);
       deps := Some [count] |} in
  {| cells := count;
     view :=
       Fragment
         [ Host "div" [] [NumberChild count];
           Host "button"
             [("onClick", PHandler [Call (setCount (Js.add count (Js.Int 1)))])]
             [Text "Increment"] ];
     effects := [titleEffect; timerEffect; eachRender; firstRender; countChanges] |}.

Definition CounterWithSideEffects_component
  : FunctionComponent unit Js.number CountUpdate :=
  {| body := CounterWithSideEffects;
     write := fun call _ => match call with SetCountOnly value => value end;
     unchanged := fun call count =>
       match call with SetCountOnly value => Js.sameValue value count end |}.

(** The custom hook.  [cell] and [set] say which state cell of the calling
    component the hook owns. *)
Definition useToggleState {C} (initialState : Js.optboolean)
  (cell : option Js.optboolean) (set : Js.optboolean -> C)
  : Js.optboolean * Handler C :=
  let '(state, setState) := useState initialState cell set in
  let toggleState : Handler C := [Call (setState (Js.Bool (Js.not state)))] in
  (state, toggleState).

Inductive ToggleUpdate : Type :=
| SetState (value : Js.optboolean).

Definition Toggle (_ : unit) (hooks : option Js.optboolean)
  (page : Dom.World) : Rendered Js.optboolean ToggleUpdate :=
  let '(state, toggleState) := useToggleState (Js.Bool false) hooks SetState in
  {| cells := state;
     view :=
       Host "div"
         [ ("style", PStyle [("color", if Js.ToBoolean state then "red" else "black")]);
           ("onClick", PHandler toggleState) ]
         [Text "Click to change the color"];
     effects := [] |}.

Definition Toggle_component
  : FunctionComponent unit Js.optboolean ToggleUpdate :=
  {| body := Toggle;
     write := fun call _ => match call with SetState value => value end;
     unchanged := fun call state =>
       match call with SetState value => Js.sameBoolean value state end |}.

End Hooks04.

(* ================================================================== *)
(** * 05-ThinkingInReact.tsx *)
(* ================================================================== *)

Module ThinkingInReact05.

Definition SlaPageTitle (_ : unit) (page : Dom.World)
  : Element (Handler Empty_set) :=
  Host "div" [("style", PStyle [("fontSize", "40px")])] [Text "SLA list"].

Definition SlaActionBar (_ : unit) (page : Dom.World)
  : Element (Handler Empty_set) :=
  Fragment
    [ Host "button" [] [Text "Create SLA Domain"];
      Host "input" [("placeholder", PString "Search by name")] [] ].

Record SlaListPageCells : Type := {
  searchText : string;
  filters : list string;
}.

Inductive SlaListPageUpdate : Type :=
| SetSearchText (value : string)
| SetFilters (value : list string).

(** The identifiers the file binds at its top level. *)
Definition bound : list string :=
  ["SlaPageTitle"; "SlaActionBar"; "SlaListPage"; "PageTitle"].

(** The body of [SlaListPage]: its two hooks and the JSX it ends in, as
    written.  The JSX names [SlaFilters] and [SlaTable], which the file
    does not bind, so the call itself, [SlaListPage_call], throws before it
    returns this tree. *)
Definition SlaListPage (_ : unit) (hooks : option SlaListPageCells)
  (page : Dom.World) : Rendered SlaListPageCells SlaListPageUpdate :=
  let '(searchText, setSearchText) :=
    useState "" (option_map searchText hooks) SetSearchText in
  let '(filters, setFilters) :=
    useState [] (option_map filters hooks) SetFilters in
  {| cells := {| searchText := searchText; filters := filters |};
     view :=
       Fragment
         [ Component "SlaPageTitle" None [];
           Component "SlaActionBar" None
             [ ("searchText", PString searchText);
               ("setSearchText", PStringUpdater (fun v => [Call (setSearchText v)])) ];
           Component "SlaFilters" None
             [ ("filters", PStrings filters);
               ("setFilters", PStringsUpdater (fun v => [Call (setFilters v)])) ];
           Component "SlaTable" None
             [ ("searchText", PString searchText);
               ("filters", PStrings filters) ] ];
     effects := [] |}.

Definition SlaListPage_component
  : FunctionComponent unit SlaListPageCells SlaListPageUpdate :=
  {| body := SlaListPage;
     write := fun call cells =>
       match call with
       | SetSearchText value => {| searchText := value; filters := filters cells |}
       | SetFilters value => {| searchText := searchText cells; filters := value |}
       end;
     unchanged := fun call cells =>
       match call with
       | SetSearchText value => String.eqb value (searchText cells)
       | SetFilters _ => false (* an array built by the caller is a new object *)
       end |}.

(** A call of [SlaListPage], as the file's scope lets it run. *)
Definition SlaListPage_call (hooks : option SlaListPageCells) (page : Dom.World)
  : Js.Completion (Rendered SlaListPageCells SlaListPageUpdate) :=
  call bound SlaListPage_component tt hooks page.

Record IProps : Type := {
  titleProp : string;
}.

(** The parameter is called [title] but it is the whole props object, and
    that object is what the element gets as its child. *)
Definition PageTitle (title : IProps) (page : Dom.World)
  : Element (Handler Empty_set) :=
  Host "div" [("style", PStyle [("fontSize", "40px"); ("color", "teal")])]
    [ObjectChild [("title", titleProp title)]].

End ThinkingInReact05.

(* ================================================================== *)
(** * react-dom *)
(* ================================================================== *)

Module ReactDom.

(** A mounted tree: the container node and the host elements put in it. *)
Record Root (H : Type) : Type := {
  container : Dom.Node;
  content : Element H;
}.
Arguments container {H} r.
Arguments content {H} r.

(** The children of an element, rendered in order by [go]; the first
    error ends the rendering. *)
Definition renderChildren {H} (go : Element H -> Js.Completion (Element H))
  : list (Element H) -> Js.Completion (list (Element H)) :=
  fix all (l : list (Element H)) : Js.Completion (list (Element H)) :=
    match l with
    | [] => Js.Normal []
    | c :: l' =>
        match go c with
        | Js.Throw error => Js.Throw error
        | Js.Normal c' =>
            match all l' with
            | Js.Throw error => Js.Throw error
            | Js.Normal r => Js.Normal (c' :: r)
            end
        end
    end.

(** The host tree of an element description.  Component elements are
    replaced by what their component returns, called through [scope] with
    at most [stack] calls nested (beyond that the call stack overflows); an
    object among the children is rejected. *)
Fixpoint renderTree {H} (scope : Scope H) (page : Dom.World) (stack : nat)
  : Element H -> Js.Completion (Element H) :=
  fix go (e : Element H) : Js.Completion (Element H) :=
    match e with
    | Text s => Js.Normal (Text s)
    | NumberChild n => Js.Normal (NumberChild n)
    | ObjectChild fields =>
        Js.Throw (Js.ObjectsAreNotValidAsAReactChild (map fst fields))
    | Host tag props children =>
        match renderChildren go children with
        | Js.Throw error => Js.Throw error
        | Js.Normal r => Js.Normal (Host tag props r)
        end
    | Fragment children =>
        match renderChildren go children with
        | Js.Throw error => Js.Throw error
        | Js.Normal r => Js.Normal (Fragment r)
        end
    | Component type _ props =>
        match stack with
        | O => Js.Throw Js.RangeError
        | S stack' =>
            match scope type with
            | Some component => renderTree scope page stack' (component props page)
            | None => Js.Throw (Js.ReferenceError type)
            end
        end
    end.

(** [render(element, container)]; [container] is what
    [document.getElementById] returned, [None] for [null].  The container
    has to be an element node, and the tree has to render. *)
Definition render {H} (scope : Scope H) (page : Dom.World) (stack : nat)
  (element : Element H) (container : option Dom.Node)
  : Js.Completion (Root H) :=
  match container with
  | Some (Dom.ElementNode tagName attributes childNodes) =>
      match renderTree scope page stack element with
      | Js.Normal host =>
          Js.Normal
            {| container := Dom.ElementNode tagName attributes childNodes;
               content := host |}
      | Js.Throw error => Js.Throw error
      end
  | _ => Js.Throw Js.TargetContainerIsNotADomElement
  end.

End ReactDom.

(* ================================================================== *)
(** * README.tsx

    The hello-world walk-through, which 02-Detective.tsx cites under this
    name. *)
(* ================================================================== *)

Module Readme.

Definition reactElementTree : Element (Handler Empty_set) :=
  Host "h1" [("id", PString "title")] [Text "Hello, World!"].

(** The file's JSX names no component. *)
Definition scope : Scope (Handler Empty_set) := fun _ => None.

(** The module's top level, run in the page [w]. *)
Definition main (stack : nat) (w : Dom.World)
  : Js.Completion (ReactDom.Root (Handler Empty_set)) :=
  let domContainer := Dom.getElementById w "root" in
  ReactDom.render scope w stack reactElementTree domContainer.

End Readme.

(* ================================================================== *)
(** * index.tsx *)
(* ================================================================== *)

Module Index.

Definition reactElementTree : Element (Handler Empty_set) :=
  Component "Sherlock" None [].

Section Imports.
(** [import {Sherlock} from './01-Sherlock'] *)
Variable Sherlock : unit -> Dom.World -> Element (Handler Empty_set).

(** The names in scope of the module's JSX. *)
Definition scope : Scope (Handler Empty_set) :=
  fun type =>
    if String.eqb type "Sherlock" then Some (fun _ page => Sherlock tt page)
    else None.

(** The module's top level, run in the page [w]. *)
Definition main (stack : nat) (w : Dom.World)
  : Js.Completion (ReactDom.Root (Handler Empty_set)) :=
  let containerDomNode := Dom.getElementById w "root" in
  ReactDom.render scope w stack reactElementTree containerDomNode.
End Imports.

End Index.

(* ================================================================== *)
(** * The repository as a whole *)
(* ================================================================== *)

Module Repository.

Inductive SourceFile : Type :=
| README
| index
| Sherlock01_tsx
| Detective02_tsx
| DetectiveInTheField03_tsx
| Hooks04_tsx
| ThinkingInReact05_tsx.

(** An exported component, with the file that defines it and the input
    values its output interpolates. *)
Record Exported : Type := {
  exportedAs : string;
  definedIn : SourceFile;
  Props : Type;
  Cells : Type;
  Calls : Type;
  component : FunctionComponent Props Cells Calls;
  interpolated : list (Props -> Cells -> string);
}.

Definition Sherlock : Exported :=
  {| exportedAs := "Sherlock";
     definedIn := Sherlock01_tsx;
     component := stateless Sherlock01.Sherlock;
     interpolated := [] |}.

Definition Detective : Exported :=
  {| exportedAs := "Detective";
     definedIn := Detective02_tsx;
     component := stateless Detective02.Detective;
     interpolated :=
       [ fun props _ => Detective02.name props;
         fun props _ => Js.numberToString (Detective02.casesSolved props) ] |}.

Definition DetectivesList : Exported :=
  {| exportedAs := "DetectivesList";
     definedIn := Detective02_tsx;
     component := stateless Detective02.DetectivesList;
     interpolated := [] |}.

Definition DetectiveInTheField : Exported :=
  {| exportedAs := "DetectiveInTheField";
     definedIn := DetectiveInTheField03_tsx;
     component := DetectiveInTheField03.DetectiveInTheField_component;
     interpolated :=
       [ fun props _ => DetectiveInTheField03.name props;
         fun _ casesSolved => Js.numberToString casesSolved ] |}.

Definition DetectiveInTheFieldClass : Exported :=
  {| exportedAs := "DetectiveInTheFieldClass";
     definedIn := DetectiveInTheField03_tsx;
     component := ofClass DetectiveInTheField03.DetectiveInTheFieldClass;
     interpolated :=
       [ fun props _ => DetectiveInTheField03.name props;
         fun _ state => Js.ToString (DetectiveInTheField03.casesSolved state) ] |}.

Definition Counter : Exported :=
  {| exportedAs := "Counter";
     definedIn := Hooks04_tsx;
     component := Hooks04.Counter_component;
     interpolated := [ fun _ cells => Js.numberToString (Hooks04.count cells) ] |}.

Definition CounterWithSideEffects : Exported :=
  {| exportedAs := "CounterWithSideEffects";
     definedIn := Hooks04_tsx;
     component := Hooks04.CounterWithSideEffects_component;
     interpolated := [ fun _ count => Js.numberToString count ] |}.

Definition Toggle : Exported :=
  {| exportedAs := "Toggle";
     definedIn := Hooks04_tsx;
     component := Hooks04.Toggle_component;
     interpolated := [] |}.

Definition SlaPageTitle : Exported :=
  {| exportedAs := "SlaPageTitle";
     definedIn := ThinkingInReact05_tsx;
     component := stateless ThinkingInReact05.SlaPageTitle;
     interpolated := [] |}.

Definition SlaActionBar : Exported :=
  {| exportedAs := "SlaActionBar";
     definedIn := ThinkingInReact05_tsx;
     component := stateless ThinkingInReact05.SlaActionBar;
     interpolated := [] |}.

Definition SlaListPage : Exported :=
  {| exportedAs := "SlaListPage";
     definedIn := ThinkingInReact05_tsx;
     component := ThinkingInReact05.SlaListPage_component;
     interpolated :=
       [ fun _ cells => ThinkingInReact05.searchText cells;
         fun _ cells => String.concat "," (ThinkingInReact05.filters cells) ] |}.

Definition PageTitle : Exported :=
  {| exportedAs := "PageTitle";
     definedIn := ThinkingInReact05_tsx;
     component := stateless ThinkingInReact05.PageTitle;
     interpolated := [ fun props _ => ThinkingInReact05.titleProp props ] |}.

(** Every component a file of the repository exports. *)
Definition exported : list Exported :=
  [ Sherlock; Detective; DetectivesList; DetectiveInTheField;
    DetectiveInTheFieldClass; Counter; CounterWithSideEffects; Toggle;
    SlaPageTitle; SlaActionBar; SlaListPage; PageTitle ].

Definition sameFile (a b : SourceFile) : bool :=
  match a, b with
  | README, README
  | index, index
  | Sherlock01_tsx, Sherlock01_tsx
  | Detective02_tsx, Detective02_tsx
  | DetectiveInTheField03_tsx, DetectiveInTheField03_tsx
  | Hooks04_tsx, Hooks04_tsx
  | ThinkingInReact05_tsx, ThinkingInReact05_tsx => true
  | _, _ => false
  end.

(** The component names a file binds: those of the components it defines
    (none of the example files imports a component). *)
Definition boundIn (file : SourceFile) : list string :=
  map exportedAs (filter (fun y => sameFile (definedIn y) file) exported).

(** A call of an exported component, as its file's scope lets it run. *)
Definition called (x : Exported) (props : Props x) (hooks : option (Cells x))
  (page : Dom.World) : Js.Completion (Rendered (Cells x) (Calls x)) :=
  call (boundIn (definedIn x)) (component x) props hooks page.

End Repository.

(* ================================================================== *)
(** * Properties *)
(* ================================================================== *)

(** A page without a [root] node. *)
Definition blankPage : Dom.Node :=
  Dom.ElementNode "html" [] [Dom.ElementNode "body" [] []].

(** The page the examples expect: [<div id="root">] in the body. *)
Definition rootPage : Dom.Node :=
  Dom.ElementNode "html" []
    [Dom.ElementNode "body" [] [Dom.ElementNode "div" [("id", "root")] []]].

(** A page to evaluate a body in, where it does not matter which. *)
Definition anyPage : Dom.World := Dom.load blankPage.

(** The two lines of text a detective in the field shows. *)
Definition introductionLine {H} (e : Element H) : string :=
  nth 0 (textContent e) "".

Definition solvedCasesMessage {H} (e : Element H) : string :=
  nth 1 (textContent e) "".

(** [k] clicks on the element labelled [label]. *)
Definition clicks (label : string) (k : nat) : list Event :=
  repeat (Click label) k.

(** ** Mounted instances, by the state they hold *)

Definition fieldInstance (props : DetectiveInTheField03.IProps) (n : Js.number)
  : Instance Js.number DetectiveInTheField03.Update :=
  {| state := n;
     shown :=
       view (DetectiveInTheField03.DetectiveInTheField props (Some n) anyPage);
     slots := [] |}.

Definition classInstance (props : DetectiveInTheField03.IProps)
  (s : DetectiveInTheField03.IState)
  : Instance DetectiveInTheField03.IState
      (DetectiveInTheField03.IState -> DetectiveInTheField03.IState) :=
  {| state := s;
     shown := render DetectiveInTheField03.DetectiveInTheFieldClass props s anyPage;
     slots := [] |}.

Definition toggleInstance (s : Js.optboolean)
  : Instance Js.optboolean Hooks04.ToggleUpdate :=
  {| state := s; shown := view (Hooks04.Toggle tt (Some s) anyPage);
     slots := [] |}.

(** ** Determinism *)

(** Equal props and equal state values give equal element trees, whether
    the evaluation is the first render or a later one, and whatever page it
    runs in. *)
Definition deterministic {P S C} (f : FunctionComponent P S C) : Prop :=
  forall props1 props2 hooks1 hooks2 page1 page2,
    props1 = props2 ->
    cells (body f props1 hooks1 page1) = cells (body f props2 hooks2 page2) ->
    view (body f props1 hooks1 page1) = view (body f props2 hooks2 page2).

(** Two calls end alike: in the same error, or in equal element trees. *)
Definition sameOutcome {S C} (a b : Js.Completion (Rendered S C)) : Prop :=
  match a, b with
  | Js.Normal r1, Js.Normal r2 => view r1 = view r2
  | Js.Throw error1, Js.Throw error2 => error1 = error2
  | _, _ => False
  end.

(** ** Output built without branching *)

(** The whole output is one template, filled with the interpolated values
    of the props and state at hand. *)
Definition builtWithoutBranching (x : Repository.Exported) : Prop :=
  exists template : list (list Part),
    forall props hooks page,
      let r := body (Repository.component x) props hooks page in
      fragments (view r)
      = map (fill (map (fun f => f props (cells r)) (Repository.interpolated x)))
          template.

Definition literal (fs : list string) : list (list Part) :=
  map (fun s => [Lit s]) fs.

(** The components whose JSX contains a conditional expression. *)
Definition branching : list string :=
  ["DetectiveInTheField"; "DetectiveInTheFieldClass"; "Toggle"].

(** ** State changes go through the framework *)

Definition callsOnly {C} (h : Handler C) : bool := forallb isCall h.

Definition propThroughFramework {C} (p : string * PropValue (Handler C)) : Prop :=
  match snd p with
  | PHandler h => callsOnly h = true
  | PStringUpdater set => forall v, callsOnly (set v) = true
  | PStringsUpdater set => forall v, callsOnly (set v) = true
  | _ => True
  end.

(** Every handler an element carries, at any depth, only calls updaters. *)
Fixpoint throughFramework {C} (e : Element (Handler C)) : Prop :=
  let all :=
    fix all (l : list (Element (Handler C))) : Prop :=
      match l with
      | [] => True
      | c :: l' => throughFramework c /\ all l'
      end in
  match e with
  | Host _ props children => Forall propThroughFramework props /\ all children
  | Fragment children => all children
  | Component _ _ props => Forall propThroughFramework props
  | _ => True
  end.

(** What is on screen is a render of the state the instance holds: no
    state change went unnoticed by the framework. *)
Definition inSync {P S C} (f : FunctionComponent P S C) (props : P)
  (i : Instance S C) : Prop :=
  exists hooks page,
    state i = cells (body f props hooks page) /\
    shown i = view (body f props hooks page).

(** ** Resources *)

Definition registersNoEffect {P S C} (f : FunctionComponent P S C) : Prop :=
  forall props hooks page, effects (body f props hooks page) = [].

(** The effect slots of a mounted [CounterWithSideEffects] whose pending
    timer is [id]. *)
Definition timerSlots (id : nat) (count : Js.number) : list Slot :=
  [ {| lastDeps := None; cleanup := None |};
    {| lastDeps := None; cleanup := Some (Dom.clearTimeout id) |};
    {| lastDeps := None; cleanup := None |};
    {| lastDeps := Some []; cleanup := None |};
    {| lastDeps := Some [count]; cleanup := None |} ].

Definition onlyTimer (id : nat) (w : Dom.World) : Prop :=
  (List.length (Dom.timers w) <= 1)%nat /\
  forall t, In t (Dom.timers w) -> Dom.timerId t = id.

Definition timerInvariant
  (iw : Instance Js.number Hooks04.CountUpdate * Dom.World) : Prop :=
  exists id count,
    slots (fst iw) = timerSlots id count /\
    shown (fst iw)
    = view (Hooks04.CounterWithSideEffects tt (Some (state (fst iw))) anyPage) /\
    onlyTimer id (snd iw).

Definition quiet {S C} (iw : Instance S C * Dom.World) : Prop :=
  slots (fst iw) = [] /\ Dom.timers (snd iw) = [].

(** A proof step shared below: one case per exported component. *)
Ltac each_exported Hin :=
  simpl in Hin;
  repeat (destruct Hin as [<- | Hin]); try contradiction.

(** ** Further instances and observations *)

Definition counterInstance (c : Hooks04.CounterCells)
  : Instance Hooks04.CounterCells Hooks04.CounterUpdate :=
  {| state := c; shown := view (Hooks04.Counter tt (Some c) anyPage);
     slots := [] |}.

(** The [color] of an element's inline style. *)
Definition cssColor {H} (e : Element H) : option string :=
  match e with
  | Host _ props _ =>
      match getProp "style" props with
      | Some (PStyle declarations) => Dom.getAttribute declarations "color"
      | _ => None
      end
  | _ => None
  end.

(** What [CounterWithSideEffects] has written to the console after mounting
    and [k] clicks that each changed the count. *)
Fixpoint consoleAfter (k : nat) : list string :=
  match k with
  | O => [ "Runs on each render"; "Runs only on the first render";
           "Runs only when count changes" ]
  | S k' => (consoleAfter k'
               ++ ["Runs on each render"; "Runs only when count changes"])%list
  end.

(** [CounterWithSideEffects] and its page after mounting on [page] and [k]
    clicks. *)
Definition sideEffectsAfter (page : Dom.Node) (k : nat)
  : Instance Js.number Hooks04.CountUpdate * Dom.World :=
  ({| state := Js.Int (Z.of_nat k);
      shown :=
        view (Hooks04.CounterWithSideEffects tt (Some (Js.Int (Z.of_nat k)))
                anyPage);
      slots := timerSlots k (Js.Int (Z.of_nat k)) |},
   {| Dom.title := Js.numberToString (Js.Int (Z.of_nat k)) ++ " clicks";
      Dom.documentElement := page;
      Dom.console := consoleAfter k;
      Dom.timers := [ {| Dom.timerId := k; Dom.delay := 5000;
                         Dom.task := Dom.Log "Some useful message" |} ];
      Dom.nextTimerId := S k |}).

(** The timer [CounterWithSideEffects] sets. *)
Definition usefulTimer (id : nat) : Dom.Timer :=
  {| Dom.timerId := id; Dom.delay := 5000;
     Dom.task := Dom.Log "Some useful message" |}.

(** The invariant of a mounted [CounterWithSideEffects], with the title,
    the freshness of timer ids and the kind of timer pending. *)
Definition effectsInvariant
  (iw : Instance Js.number Hooks04.CountUpdate * Dom.World) : Prop :=
  timerInvariant iw /\
  Dom.title (snd iw) = Js.numberToString (state (fst iw)) ++ " clicks" /\
  (forall t, In t (Dom.timers (snd iw)) ->
             t = usefulTimer (Dom.timerId t) /\
             (Dom.timerId t < Dom.nextTimerId (snd iw))%nat).

(** ** Which file a component name comes from *)

(** No file other than [file] exports [name]. *)
Definition notFromAnotherFile (file : Repository.SourceFile) (name : string)
  : Prop :=
  forall z, In z Repository.exported -> Repository.exportedAs z = name ->
            Repository.definedIn z = file.
(* ================================================================== *)
(** * Facts about the JavaScript model *)
(* ================================================================== *)

Section JsFacts.

Lemma roundToDouble_exact (z : Z) :
  - Js.MAX_EXACT <= z <= Js.MAX_EXACT -> Js.roundToDouble z = z.
Proof.
  unfold Js.MAX_EXACT. intros Hz.
  assert (Hcases : Z.abs z < 2 ^ 53 \/ Z.abs z = 2 ^ 53) by lia.
  unfold Js.roundToDouble.
  destruct Hcases as [Hlt | Heq].
  - assert (He : Z.max 0 (Z.log2 (Z.abs z) - 52) = 0).
    { destruct (Z.eq_dec (Z.abs z) 0) as [H0 | H0].
      - rewrite H0. reflexivity.
      - assert (Z.log2 (Z.abs z) < 53) by (apply Z.log2_lt_pow2; lia). lia. }
    rewrite He. change (2 ^ 0) with 1.
    rewrite Z.div_1_r, Z.mod_1_r. simpl. lia.
  - assert (He : Z.max 0 (Z.log2 (Z.abs z) - 52) = 1).
    { rewrite Heq. reflexivity. }
    rewrite He. change (2 ^ 1) with 2.
    assert (Hz2 : z = 2 ^ 53 \/ z = - 2 ^ 53) by lia.
    destruct Hz2 as [-> | ->]; reflexivity.
Qed.

Lemma add_exact (x y : Z) :
  - Js.MAX_EXACT <= x + y <= Js.MAX_EXACT ->
  Js.add (Js.Int x) (Js.Int y) = Js.Int (x + y).
Proof. intros H. simpl. now rewrite roundToDouble_exact. Qed.

(** Past [2^53] adding one is lost to rounding. *)
Example add_one_above_2_53 :
  Js.add (Js.Int (2 ^ 53)) (Js.Int 1) = Js.Int (2 ^ 53).
Proof. reflexivity. Qed.

Lemma sameValue_eq (a b : Js.number) : Js.sameValue a b = true -> a = b.
Proof.
  destruct a as [x |], b as [y |]; simpl; try discriminate; [| reflexivity].
  intros H. apply Z.eqb_eq in H. now subst.
Qed.

Lemma sameValue_refl (a : Js.number) : Js.sameValue a a = true.
Proof. destruct a; simpl; [apply Z.eqb_refl | reflexivity]. Qed.

Lemma eqb_eq_string (a b : string) : String.eqb a b = true -> a = b.
Proof. apply String.eqb_eq. Qed.

Lemma append_cancel_l (s a b : string) : s ++ a = s ++ b -> a = b.
Proof.
  induction s as [| ch s IH]; simpl; intros H; [exact H | injection H; auto].
Qed.

Lemma append_empty_r (s : string) : s ++ "" = s.
Proof. induction s; simpl; congruence. Qed.

Lemma length_append (a b : string) :
  String.length (a ++ b) = (String.length a + String.length b)%nat.
Proof. induction a as [| ch a IH]; simpl; [reflexivity | now rewrite IH]. Qed.

End JsFacts.

(* ================================================================== *)
(** * Facts about the framework model *)
(* ================================================================== *)

Section RuntimeFacts.
Context {P S C : Type}.
Variable f : FunctionComponent P S C.
Variable props : P.

(** A property that holds after mounting and survives every event holds
    after every run. *)
Lemma run_invariant (Inv : Instance S C * Dom.World -> Prop) (w : Dom.World) :
  Inv (mount f props w) ->
  (forall ev iw, Inv iw -> Inv (step f props ev iw)) ->
  forall events, Inv (run f props events w).
Proof.
  intros Hmount Hstep events. unfold run.
  generalize dependent (mount f props w).
  induction events as [| ev events IH]; intros iw Hiw; [exact Hiw |].
  simpl. apply IH. now apply Hstep.
Qed.

Lemma commit_shows (r : Rendered S C) old w :
  state (fst (commit r old w)) = cells r /\
  shown (fst (commit r old w)) = view r.
Proof.
  unfold commit. destruct old as [previous |].
  - destruct (rerunStale _ _ _). split; reflexivity.
  - destruct (mountEffects _ _). split; reflexivity.
Qed.

(** A handler made of updater calls either schedules a re-render or
    leaves the state as it was. *)
Lemma execute_calls (h : Handler C) :
  callsOnly h = true ->
  forall s b,
    execute f h s b = (s, b) \/ snd (execute f h s b) = true.
Proof.
  induction h as [| [c | c] h IH]; simpl; intros Hc s b;
    [now left | | discriminate].
  destruct (unchanged f c s); [now apply IH |].
  right. destruct (IH Hc (write f c s) true) as [-> | H]; [reflexivity | exact H].
Qed.

End RuntimeFacts.

Lemma onClick_through {C} (props : list (string * PropValue (Handler C))) h :
  Forall propThroughFramework props -> onClick props = Some h ->
  callsOnly h = true.
Proof.
  induction 1 as [| [name v] props Hp _ IH]; simpl; [discriminate |].
  destruct v; auto.
  destruct (String.eqb name "onClick"); [| auto].
  intros [= <-]. exact Hp.
Qed.

Lemma clickTarget_through {C} (label : string) :
  forall (e : Element (Handler C)) h,
    throughFramework e -> clickTarget label e = Some h -> callsOnly h = true.
Proof.
  fix IH 1. intros e h.
  assert (Hall : forall l : list (Element (Handler C)),
             (fix all (l : list (Element (Handler C))) : Prop :=
                match l with
                | [] => True
                | c :: l' => throughFramework c /\ all l'
                end) l ->
             (fix first (l : list (Element (Handler C))) : option (Handler C) :=
                match l with
                | [] => None
                | c :: l' =>
                    match clickTarget label c with
                    | Some h => Some h
                    | None => first l'
                    end
                end) l = Some h ->
             callsOnly h = true).
  { induction l as [| c l IHl]; [discriminate |].
    intros [Hc Hl]. destruct (clickTarget label c) as [h' |] eqn:Hct.
    - intros [= <-]. exact (IH c h' Hc Hct).
    - exact (IHl Hl). }
  destruct e as [s | n | o | tag props children | children | type key props];
    simpl; try discriminate.
  - intros [Hprops Hch]. destruct (hasLabel label children).
    + now apply onClick_through.
    + now apply Hall.
  - apply Hall.
Qed.

(** If every view only calls updaters, the screen never lags the state. *)
Lemma inSync_run {P S C} (f : FunctionComponent P S C) :
  (forall props hooks page, throughFramework (view (body f props hooks page))) ->
  forall props events w, inSync f props (fst (run f props events w)).
Proof.
  intros Hthrough props events w.
  apply (run_invariant f props (fun iw => inSync f props (fst iw))).
  - exists None, w. apply commit_shows.
  - intros [label | id] iw Hiw; simpl; [| exact Hiw].
    destruct (clickTarget label (shown (fst iw))) as [h |] eqn:Hct; [| exact Hiw].
    destruct Hiw as (hooks & page & Hst & Hsh).
    assert (Hh : callsOnly h = true).
    { apply (clickTarget_through label (shown (fst iw)) h); [| exact Hct].
      rewrite Hsh. apply Hthrough. }
    unfold dispatch.
    destruct (execute_calls f h Hh (state (fst iw)) false) as [-> | Hsched].
    + simpl. exists hooks, page. split; assumption.
    + destruct (execute f h (state (fst iw)) false) as [s scheduled].
      simpl in Hsched. subst scheduled.
      exists (Some s), (snd iw). apply commit_shows.
Qed.

(** A component without effects leaves a page without timers as it is. *)
Lemma quiet_run {P S C} (f : FunctionComponent P S C) :
  registersNoEffect f ->
  forall props events page, quiet (run f props events (Dom.load page)).
Proof.
  intros Hnone props events page.
  apply (run_invariant f props quiet).
  - unfold mount, commit. rewrite Hnone. split; reflexivity.
  - intros [label | id] iw [Hslots Htimers]; simpl.
    + destruct (clickTarget label (shown (fst iw))) as [h |]; [| now split].
      unfold dispatch.
      destruct (execute f h (state (fst iw)) false) as [s [|]]; [| now split].
      unfold rerender, commit. rewrite Hnone, Hslots. now split.
    + split; [exact Hslots |]. unfold Dom.fire. now rewrite Htimers.
Qed.
(* ================================================================== *)
(** * 03-DetectiveInTheField.tsx: counting solved cases *)
(* ================================================================== *)

Section DetectiveInTheFieldFacts.
Import DetectiveInTheField03.
Variable props : IProps.

Lemma field_mount w :
  mount DetectiveInTheField_component props w
  = (fieldInstance props (Js.orDefault (Js.Int 0) (casesSolvedSoFar props)), w).
Proof. reflexivity. Qed.

(** A click stores the count plus one; where that is the count itself,
    the framework ignores the update, and nothing changes. *)
Lemma field_click n w :
  step DetectiveInTheField_component props (Click "Solve this case")
    (fieldInstance props n, w)
  = (fieldInstance props (Js.add n (Js.Int 1)), w).
Proof.
  cbn [step fst snd shown fieldInstance view DetectiveInTheField useState
         clickTarget hasLabel onClick String.eqb Ascii.eqb Bool.eqb].
  unfold dispatch.
  cbn [execute state fieldInstance unchanged write DetectiveInTheField_component].
  destruct (Js.sameValue (Js.add n (Js.Int 1)) n) eqn:Hsame.
  - apply sameValue_eq in Hsame. rewrite Hsame. reflexivity.
  - reflexivity.
Qed.

Lemma field_clicks k : forall c w,
  - Js.MAX_EXACT <= c -> c + Z.of_nat k <= Js.MAX_EXACT ->
  fold_left (fun iw ev => step DetectiveInTheField_component props ev iw)
    (clicks "Solve this case" k) (fieldInstance props (Js.Int c), w)
  = (fieldInstance props (Js.Int (c + Z.of_nat k)), w).
Proof.
  induction k as [| k IH]; intros c w Hlo Hhi.
  - simpl. now rewrite Z.add_0_r.
  - unfold clicks. cbn [repeat fold_left]. rewrite field_click.
    rewrite add_exact by lia.
    unfold clicks in IH. rewrite IH by lia.
    do 3 f_equal. lia.
Qed.

Lemma field_text n :
  textContent (shown (fieldInstance props n)) =
  [ "I'm " ++ name props ++ ".";
    if Js.gt n (Js.Int 0)
    then "I've solved " ++ Js.numberToString n ++ " "
         ++ (if Js.gt n (Js.Int 1) then "cases" else "case") ++ "."
    else "I'm a detective in the making.";
    "Solve this case" ].
Proof. reflexivity. Qed.

Lemma class_mount w :
  mount (ofClass DetectiveInTheFieldClass) props w
  = (classInstance props {| casesSolved := casesSolvedSoFar props |}, w).
Proof. reflexivity. Qed.

Lemma class_click s w :
  step (ofClass DetectiveInTheFieldClass) props (Click "Solve this case")
    (classInstance props s, w)
  = (classInstance props
       {| casesSolved :=
            Js.Num (Js.add (Js.ToNumber (casesSolved s)) (Js.Int 1)) |}, w).
Proof. reflexivity. Qed.

(** Once both hold the same number, the class follows the function click
    by click. *)
Lemma class_follows_function k : forall n w,
  exists m,
    fold_left (fun iw ev => step DetectiveInTheField_component props ev iw)
      (clicks "Solve this case" k) (fieldInstance props n, w)
    = (fieldInstance props m, w) /\
    fold_left (fun iw ev => step (ofClass DetectiveInTheFieldClass) props ev iw)
      (clicks "Solve this case" k)
      (classInstance props {| casesSolved := Js.Num n |}, w)
    = (classInstance props {| casesSolved := Js.Num m |}, w).
Proof.
  induction k as [| k IH]; intros n w.
  - exists n. split; reflexivity.
  - unfold clicks. cbn [repeat fold_left].
    rewrite field_click, class_click. cbn [casesSolved Js.ToNumber].
    apply IH.
Qed.

(** X8: when [casesSolvedSoFar] is passed, the class component and the
    function component show the same markup after any number of clicks. *)
Lemma class_agrees_when_prop_given n k w :
  casesSolvedSoFar props = Js.Num n ->
  markup (shown (fst (run (ofClass DetectiveInTheFieldClass) props
                        (clicks "Solve this case" k) w)))
  = markup (shown (fst (run DetectiveInTheField_component props
                          (clicks "Solve this case" k) w))).
Proof.
  intros Hn. unfold run. rewrite class_mount, field_mount, Hn.
  cbn [Js.orDefault].
  destruct (class_follows_function k n w) as [m [Hf Hc]].
  rewrite Hf, Hc. reflexivity.
Qed.

End DetectiveInTheFieldFacts.

(** C1 (the class component behaves like the function component for every
    props value and every number of clicks) fails on the code: with
    [casesSolvedSoFar] omitted the function component starts from its
    default 0 and shows one solved case after one click, while the class
    component stores [undefined], turns it into [NaN] on the click and
    keeps showing the message of a detective in the making. *)
Theorem DetectiveInTheFieldClass_diverges_when_prop_omitted :
  let props := {| DetectiveInTheField03.name := "Sherlock Holmes";
                  DetectiveInTheField03.casesSolvedSoFar := Js.undefined |} in
  let events := clicks "Solve this case" 1 in
  let w := Dom.load rootPage in
  let asFunction :=
    fst (run DetectiveInTheField03.DetectiveInTheField_component props events w) in
  let asClass :=
    fst (run (ofClass DetectiveInTheField03.DetectiveInTheFieldClass) props events w) in
  textContent (shown asFunction)
  = ["I'm Sherlock Holmes."; "I've solved 1 case."; "Solve this case"] /\
  textContent (shown asClass)
  = ["I'm Sherlock Holmes."; "I'm a detective in the making."; "Solve this case"] /\
  state asFunction = Js.Int 1 /\
  state asClass = {| DetectiveInTheField03.casesSolved := Js.Num Js.NaN |}.
Proof. repeat split. Qed.

(** C8, as amended: for every props value whose [casesSolvedSoFar] is an
    integer [c] (0 when omitted) and every number [k] of clicks on the
    'Solve this case' button, with [c] and [c + k] within the range where
    doubles count exactly, the state is [c + k]; the message is "I'm a
    detective in the making." exactly when that count is at most 0, uses the
    singular 'case' exactly when it is 1 and the plural 'cases' exactly when
    it is greater than 1. *)
Theorem DetectiveInTheField_count_and_message
  (props : DetectiveInTheField03.IProps) (c : Z) (k : nat) (w : Dom.World) :
  Js.orDefault (Js.Int 0) (DetectiveInTheField03.casesSolvedSoFar props) = Js.Int c ->
  - Js.MAX_EXACT <= c -> c + Z.of_nat k <= Js.MAX_EXACT ->
  let i := fst (run DetectiveInTheField03.DetectiveInTheField_component props
                  (clicks "Solve this case" k) w) in
  let count := c + Z.of_nat k in
  state i = Js.Int count /\
  introductionLine (shown i) = "I'm " ++ DetectiveInTheField03.name props ++ "." /\
  (solvedCasesMessage (shown i) = "I'm a detective in the making."
   <-> count <= 0) /\
  (solvedCasesMessage (shown i)
   = "I've solved " ++ Js.numberToString (Js.Int count) ++ " case."
   <-> count = 1) /\
  (solvedCasesMessage (shown i)
   = "I've solved " ++ Js.numberToString (Js.Int count) ++ " cases."
   <-> count > 1).
Proof.
  intros Hc Hlo Hhi i count. subst i.
  unfold run. rewrite field_mount, Hc, field_clicks by assumption.
  fold count. cbn [fst].
  unfold introductionLine, solvedCasesMessage. rewrite field_text.
  cbn [nth state fieldInstance Js.gt].
  split; [reflexivity |]. split; [reflexivity |].
  destruct (0 <? count) eqn:Hpos.
  - apply Z.ltb_lt in Hpos.
    destruct (1 <? count) eqn:Hmany;
      [apply Z.ltb_lt in Hmany | apply Z.ltb_ge in Hmany];
      repeat split; intros H; try lia; try discriminate H;
      do 2 apply append_cancel_l in H; discriminate H.
  - apply Z.ltb_ge in Hpos.
    repeat split; intros H; try lia; discriminate H.
Qed.

Lemma DetectiveInTheField_count_and_message_witness :
  let props := {| DetectiveInTheField03.name := "Sherlock Holmes";
                  DetectiveInTheField03.casesSolvedSoFar := Js.undefined |} in
  let i := fst (run DetectiveInTheField03.DetectiveInTheField_component props
                  (clicks "Solve this case" 2) (Dom.load rootPage)) in
  state i = Js.Int 2 /\
  (solvedCasesMessage (shown i) = "I've solved 2 cases." <-> 0 + 2 > 1).
Proof.
  intros props i.
  destruct (DetectiveInTheField_count_and_message props 0 2 (Dom.load rootPage))
    as (Hstate & _ & _ & _ & Hplural).
  - reflexivity.
  - unfold Js.MAX_EXACT. lia.
  - unfold Js.MAX_EXACT. simpl. lia.
  - split; [exact Hstate | exact Hplural].
Defined.

(** C8 as stated fails: a negative [casesSolvedSoFar] shows the message of a
    detective in the making although the count is not 0, and from [2^53] a
    click no longer changes the count. *)
Lemma DetectiveInTheField_count_counterexample :
  let negative := {| DetectiveInTheField03.name := "Sherlock Holmes";
                     DetectiveInTheField03.casesSolvedSoFar := Js.Num (Js.Int (-1)) |} in
  let huge := {| DetectiveInTheField03.name := "Sherlock Holmes";
                 DetectiveInTheField03.casesSolvedSoFar := Js.Num (Js.Int (2 ^ 53)) |} in
  let w := Dom.load rootPage in
  (solvedCasesMessage
     (shown (fst (run DetectiveInTheField03.DetectiveInTheField_component negative
                    (clicks "Solve this case" 0) w)))
   = "I'm a detective in the making." /\ -1 + 0 <> 0) /\
  (state (fst (run DetectiveInTheField03.DetectiveInTheField_component huge
                 (clicks "Solve this case" 1) w))
   = Js.Int (2 ^ 53) /\ 2 ^ 53 + 1 <> 2 ^ 53).
Proof. repeat split; discriminate. Qed.

(* ================================================================== *)
(** * 04-Hooks.tsx: the toggle and the timer *)
(* ================================================================== *)

Lemma toggle_click (s : bool) (w : Dom.World) :
  step Hooks04.Toggle_component tt (Click "Click to change the color")
    (toggleInstance (Js.Bool s), w)
  = (toggleInstance (Js.Bool (negb s)), w).
Proof. destruct s; reflexivity. Qed.

(** C9, as amended: the toggle that [useToggleState] returns is one updater
    call that stores the negation of the state of the render that made it
    (on a first render: of the initial state, [undefined] counting as
    false) in the hook's own cell, whatever component calls the hook.  In
    [Toggle] one click turns the state [s] into [not s], and a second click,
    handled by the updater of the render in between, brings it back to [s];
    neither touches the effect slots or the page.  The updater of one
    render applied twice stores [not s] both times. *)
Theorem toggle_involution (s : bool) (w : Dom.World) :
  (forall (C : Type) (set : Js.optboolean -> C) (initialState : Js.optboolean),
      Hooks04.useToggleState initialState None set
      = (initialState, [Call (set (Js.Bool (negb (Js.ToBoolean initialState))))]) /\
      Hooks04.useToggleState initialState (Some (Js.Bool s)) set
      = (Js.Bool s, [Call (set (Js.Bool (negb s)))])) /\
  run Hooks04.Toggle_component tt [] w = (toggleInstance (Js.Bool false), w) /\
  step Hooks04.Toggle_component tt (Click "Click to change the color")
    (toggleInstance (Js.Bool s), w)
  = (toggleInstance (Js.Bool (negb s)), w) /\
  step Hooks04.Toggle_component tt (Click "Click to change the color")
    (step Hooks04.Toggle_component tt (Click "Click to change the color")
       (toggleInstance (Js.Bool s), w))
  = (toggleInstance (Js.Bool s), w) /\
  option_map
    (fun toggleState =>
       execute Hooks04.Toggle_component (toggleState ++ toggleState)%list
         (Js.Bool s) false)
    (clickTarget "Click to change the color" (shown (toggleInstance (Js.Bool s))))
  = Some (Js.Bool (negb s), true).
Proof.
  split; [intros C set initialState; split; reflexivity |].
  split; [reflexivity |].
  split; [apply toggle_click |].
  split; [rewrite !toggle_click, negb_involutive; reflexivity |].
  destruct s; reflexivity.
Qed.

(** C9 as stated fails: the updater returned by one call of
    [useToggleState] in the state [false], applied twice, leaves [true]. *)
Lemma toggle_same_updater_twice :
  let toggleState :=
    snd (Hooks04.useToggleState (Js.Bool false) (Some (Js.Bool false))
           Hooks04.SetState) in
  let once := fst (execute Hooks04.Toggle_component toggleState
                     (Js.Bool false) false) in
  let twice := fst (execute Hooks04.Toggle_component toggleState once false) in
  once = Js.Bool true /\ twice = Js.Bool true /\ twice <> Js.Bool false.
Proof. repeat split. discriminate. Qed.

Lemma toggle_clicks_from (k : nat) : forall (s : bool) (w : Dom.World),
  fold_left (fun iw ev => step Hooks04.Toggle_component tt ev iw)
    (clicks "Click to change the color" k) (toggleInstance (Js.Bool s), w)
  = (toggleInstance (Js.Bool (xorb s (Nat.odd k))), w).
Proof.
  induction k as [| k IH]; intros s w.
  - simpl. now rewrite xorb_false_r.
  - unfold clicks in *. cbn [repeat fold_left].
    rewrite toggle_click, IH, Nat.odd_succ, <- Nat.negb_odd.
    now destruct s, (Nat.odd k).
Qed.

(** After [k] clicks the toggle is on exactly when [k] is odd. *)
Lemma toggle_clicks (k : nat) (w : Dom.World) :
  run Hooks04.Toggle_component tt (clicks "Click to change the color" k) w
  = (toggleInstance (Js.Bool (Nat.odd k)), w).
Proof. unfold run. apply (toggle_clicks_from k false w). Qed.

Section TimerFacts.
Import Hooks04.

Lemma clear_only_timer id w :
  onlyTimer id w -> Dom.timers (Dom.clearTimeout id w) = [].
Proof.
  intros [_ Hid]. simpl.
  induction (Dom.timers w) as [| t ts IH]; simpl; [reflexivity |].
  rewrite (Hid t) by now left. rewrite Nat.eqb_refl. simpl.
  apply IH. intros t' Ht'. apply Hid. now right.
Qed.

(** What a click on 'Increment' does to a mounted
    [CounterWithSideEffects]: nothing when the count plus one is the count
    itself, a re-render with the new count otherwise. *)
Lemma side_effects_click_step (iw : Instance Js.number CountUpdate * Dom.World) :
  shown (fst iw) = view (CounterWithSideEffects tt (Some (state (fst iw))) anyPage) ->
  step CounterWithSideEffects_component tt (Click "Increment") iw
  = if Js.sameValue (Js.add (state (fst iw)) (Js.Int 1)) (state (fst iw))
    then ({| state := state (fst iw); shown := shown (fst iw);
             slots := slots (fst iw) |}, snd iw)
    else rerender CounterWithSideEffects_component tt
           (Js.add (state (fst iw)) (Js.Int 1)) (slots (fst iw)) (snd iw).
Proof.
  intros Hshown. cbn [step]. rewrite Hshown.
  cbn [view CounterWithSideEffects useState clickTarget hasLabel onClick
         String.eqb Ascii.eqb Bool.eqb].
  unfold dispatch.
  cbn [execute unchanged write CounterWithSideEffects_component].
  destruct (Js.sameValue _ _); [now rewrite Hshown | reflexivity].
Qed.

Lemma other_click_step label (iw : Instance Js.number CountUpdate * Dom.World) :
  shown (fst iw) = view (CounterWithSideEffects tt (Some (state (fst iw))) anyPage) ->
  String.eqb "Increment" label = false ->
  step CounterWithSideEffects_component tt (Click label) iw = iw.
Proof.
  intros Hshown Hlabel. cbn [step]. rewrite Hshown.
  cbn [view CounterWithSideEffects useState clickTarget hasLabel].
  now rewrite Hlabel.
Qed.

Lemma timer_mount w :
  Dom.timers w = [] ->
  timerInvariant (mount CounterWithSideEffects_component tt w).
Proof.
  intros Hw. exists (Dom.nextTimerId w), (Js.Int 0).
  split; [reflexivity |]. split; [reflexivity |].
  simpl. rewrite Hw. unfold onlyTimer. simpl. split; [lia |].
  intros t [<- | []]. reflexivity.
Qed.

(** What a re-render of [CounterWithSideEffects] leaves behind. *)
Lemma side_effects_rerender s id count w :
  onlyTimer id w ->
  let iw := rerender CounterWithSideEffects_component tt s (timerSlots id count) w in
  state (fst iw) = s /\
  shown (fst iw) = view (CounterWithSideEffects tt (Some s) anyPage) /\
  (exists count', slots (fst iw) = timerSlots (Dom.nextTimerId w) count') /\
  Dom.title (snd iw) = Js.numberToString s ++ " clicks" /\
  Dom.timers (snd iw) = [usefulTimer (Dom.nextTimerId w)] /\
  Dom.nextTimerId (snd iw) = S (Dom.nextTimerId w).
Proof.
  intros Hw. pose proof (clear_only_timer id w Hw) as Hclear.
  unfold rerender, commit.
  cbn [body CounterWithSideEffects_component CounterWithSideEffects
         useState effects].
  unfold timerSlots.
  cbn [cleanupStale rerunStale stale lastDeps deps cleanup runCleanup effect].
  destruct (negb (sameDeps [count] [s]));
    cbn -[Dom.clearTimeout Js.numberToString]; rewrite Hclear;
    (split; [reflexivity |]); (split; [reflexivity |]);
    (split; [eexists; reflexivity |]); repeat split.
Qed.

Lemma timer_rerender s id count w :
  onlyTimer id w ->
  timerInvariant
    (rerender CounterWithSideEffects_component tt s (timerSlots id count) w).
Proof.
  intros Hw.
  destruct (side_effects_rerender s id count w Hw)
    as (Hs & Hsh & [count' Hsl] & _ & Htm & _).
  exists (Dom.nextTimerId w), count'.
  split; [exact Hsl |]. split; [now rewrite Hsh, Hs |].
  unfold onlyTimer. rewrite Htm. simpl. split; [lia |].
  intros t [<- | []]. reflexivity.
Qed.

Lemma timer_fire id id' w : onlyTimer id w -> onlyTimer id (Dom.fire id' w).
Proof.
  intros [Hlen Hid]. unfold Dom.fire.
  destruct (find _ _) as [t |]; [| now split].
  destruct (Dom.task t). unfold onlyTimer.
  cbn [Dom.runTask Dom.consoleLog Dom.clearTimeout Dom.timers].
  split.
  - etransitivity; [apply filter_length_le | exact Hlen].
  - intros t' Ht'. apply filter_In in Ht'. apply Hid. tauto.
Qed.

Lemma timer_step ev iw :
  timerInvariant iw ->
  timerInvariant (step CounterWithSideEffects_component tt ev iw).
Proof.
  intros (id & count & Hslots & Hshown & Hw).
  destruct ev as [label | id'].
  - destruct (String.eqb "Increment" label) eqn:Hlabel.
    + apply String.eqb_eq in Hlabel. subst label.
      rewrite side_effects_click_step by exact Hshown.
      destruct (Js.sameValue _ _).
      * exists id, count. simpl. auto.
      * rewrite Hslots. now apply timer_rerender.
    + rewrite other_click_step by assumption. exists id, count. auto.
  - exists id, count. simpl. split; [exact Hslots |]. split; [exact Hshown |].
    now apply timer_fire.
Qed.

Lemma timer_run events page :
  timerInvariant (run CounterWithSideEffects_component tt events (Dom.load page)).
Proof.
  apply run_invariant.
  - now apply timer_mount.
  - intros ev iw. apply timer_step.
Qed.

Lemma timer_unmount iw : timerInvariant iw -> Dom.timers (unmount iw) = [].
Proof.
  intros (id & count & Hslots & _ & Hw). unfold unmount. rewrite Hslots.
  cbn -[Dom.clearTimeout]. now apply clear_only_timer.
Qed.

Lemma fire_keeps_title id w : Dom.title (Dom.fire id w) = Dom.title w.
Proof.
  unfold Dom.fire. destruct (find _ _) as [t |]; [| reflexivity].
  now destruct (Dom.task t).
Qed.

Lemma fire_keeps_fresh id w :
  (forall t, In t (Dom.timers w) ->
             t = usefulTimer (Dom.timerId t) /\
             (Dom.timerId t < Dom.nextTimerId w)%nat) ->
  forall t, In t (Dom.timers (Dom.fire id w)) ->
            t = usefulTimer (Dom.timerId t) /\
            (Dom.timerId t < Dom.nextTimerId (Dom.fire id w))%nat.
Proof.
  intros Hfresh t. unfold Dom.fire.
  destruct (find _ _) as [t' |]; [| apply Hfresh].
  destruct (Dom.task t'). simpl. intros Ht. apply filter_In in Ht.
  apply Hfresh. tauto.
Qed.

Lemma effects_step ev iw :
  effectsInvariant iw ->
  effectsInvariant (step CounterWithSideEffects_component tt ev iw).
Proof.
  intros (Hinv & Htitle & Hfresh).
  split; [now apply timer_step |].
  destruct Hinv as (id & count & Hslots & Hshown & Hw).
  destruct ev as [label | id'].
  - destruct (String.eqb "Increment" label) eqn:Hlabel.
    + apply String.eqb_eq in Hlabel. subst label.
      rewrite side_effects_click_step by exact Hshown.
      destruct (Js.sameValue _ _); [now split |].
      rewrite Hslots.
      destruct (side_effects_rerender (Js.add (state (fst iw)) (Js.Int 1))
                  id count (snd iw) Hw) as (Hs & _ & _ & Ht & Htm & Hn).
      split.
      * rewrite Ht, Hs. reflexivity.
      * intros t. rewrite Htm, Hn. intros [<- | []]. simpl. split; [reflexivity | lia].
    + rewrite other_click_step by assumption. now split.
  - simpl. split; [now rewrite fire_keeps_title |]. now apply fire_keeps_fresh.
Qed.

Lemma effects_run events page :
  effectsInvariant
    (run CounterWithSideEffects_component tt events (Dom.load page)).
Proof.
  apply run_invariant.
  - split; [now apply timer_mount |]. split; [reflexivity |].
    intros t [<- | []]. simpl. split; [reflexivity | lia].
  - intros ev iw. apply effects_step.
Qed.

End TimerFacts.

Lemma quiet_unmount {S C} (iw : Instance S C * Dom.World) :
  quiet iw -> Dom.timers (unmount iw) = [].
Proof. intros [Hslots Htimers]. unfold unmount. now rewrite Hslots. Qed.

Lemma others_register_no_effect (x : Repository.Exported) :
  In x Repository.exported ->
  Repository.exportedAs x <> "CounterWithSideEffects" ->
  registersNoEffect (Repository.component x).
Proof.
  intros Hin Hname. each_exported Hin; intros props [hooks |] page; reflexivity.
Qed.

(** C7, as amended: every exported component other than
    CounterWithSideEffects registers no effect and never has a timer
    pending.  CounterWithSideEffects sets a 5000 ms timer in an effect after
    every render, on mount and after each click that changes the count, and
    the effect's cleanup clears the timer of the render before: the only
    timers ever pending are such timers, at most one at a time, and
    unmounting leaves none. *)
Theorem timers_are_released (x : Repository.Exported)
  (props : Repository.Props x) (events : list Event) (page : Dom.Node) :
  In x Repository.exported ->
  let iw := run (Repository.component x) props events (Dom.load page) in
  let counter :=
    run Hooks04.CounterWithSideEffects_component tt events (Dom.load page) in
  ((List.length (Dom.timers (snd iw)) <= 1)%nat /\
   Dom.timers (unmount iw) = [] /\
   (Repository.exportedAs x <> "CounterWithSideEffects" ->
    registersNoEffect (Repository.component x) /\ Dom.timers (snd iw) = [])) /\
  Dom.timers (snd (mount Hooks04.CounterWithSideEffects_component tt (Dom.load page)))
  = [usefulTimer 0] /\
  (forall t, In t (Dom.timers (snd counter)) -> t = usefulTimer (Dom.timerId t)) /\
  (Js.sameValue (Js.add (state (fst counter)) (Js.Int 1)) (state (fst counter))
   = false ->
   Dom.timers
     (snd (step Hooks04.CounterWithSideEffects_component tt (Click "Increment")
             counter))
   = [usefulTimer (Dom.nextTimerId (snd counter))]) /\
  Dom.timers (unmount counter) = [].
Proof.
  intros Hin iw counter.
  pose proof (effects_run events page) as Heff. fold counter in Heff.
  destruct Heff as (Hinv & _ & Hfresh).
  split; [| split; [reflexivity | split; [| split]]].
  - assert (Hquiet : Repository.exportedAs x <> "CounterWithSideEffects" ->
                     registersNoEffect (Repository.component x) /\ quiet iw).
    { intros Hname.
      pose proof (others_register_no_effect x Hin Hname) as Hnone.
      split; [exact Hnone | now apply quiet_run]. }
    destruct (string_dec (Repository.exportedAs x) "CounterWithSideEffects")
      as [Hname | Hname].
    + each_exported Hin; try discriminate Hname.
      destruct props. fold counter in iw. subst iw.
      split; [| split].
      * destruct Hinv as (id & count & _ & _ & [Hlen _]). exact Hlen.
      * now apply timer_unmount.
      * intros Hne. now contradiction Hne.
    + destruct (Hquiet Hname) as [Hnone [Hslots Htimers]].
      split; [| split].
      * subst iw. rewrite Htimers. simpl. lia.
      * apply quiet_unmount. now split.
      * intros _. split; assumption.
  - intros t Ht. now apply Hfresh.
  - intros Hchanged.
    destruct Hinv as (id & count & Hslots & Hshown & Hw).
    rewrite side_effects_click_step, Hchanged, Hslots by exact Hshown.
    now destruct (side_effects_rerender
                    (Js.add (state (fst counter)) (Js.Int 1)) id count
                    (snd counter) Hw) as (_ & _ & _ & _ & Htm & _).
  - now apply timer_unmount.
Qed.

Lemma timers_are_released_witness :
  let events := [Click "Increment"; TimerFires 0; Click "Increment"] in
  let counter :=
    run Hooks04.CounterWithSideEffects_component tt events (Dom.load rootPage) in
  In Repository.CounterWithSideEffects Repository.exported /\
  (List.length (Dom.timers (snd counter)) <= 1)%nat /\
  Dom.timers
    (snd (step Hooks04.CounterWithSideEffects_component tt (Click "Increment")
            counter))
  = [usefulTimer 3] /\
  Dom.timers (unmount counter) = [].
Proof.
  intros events counter.
  assert (Hin : In Repository.CounterWithSideEffects Repository.exported)
    by (simpl; tauto).
  destruct (timers_are_released Repository.CounterWithSideEffects tt
              events rootPage Hin)
    as ((Hlen & _ & _) & _ & _ & Hclick & Hunmount).
  split; [exact Hin |]. split; [exact Hlen |].
  split; [exact (Hclick eq_refl) | exact Hunmount].
Defined.

(** C7 as stated fails: mounting CounterWithSideEffects leaves a timer
    pending, which the effect's cleanup has to clear. *)
Lemma CounterWithSideEffects_sets_a_timer :
  In Repository.CounterWithSideEffects Repository.exported /\
  Dom.timers (snd (run Hooks04.CounterWithSideEffects_component tt []
                     (Dom.load rootPage)))
  = [ {| Dom.timerId := 0%nat; Dom.delay := 5000;
         Dom.task := Dom.Log "Some useful message" |} ].
Proof. split; [simpl; tauto | reflexivity]. Qed.
(* ================================================================== *)
(** * Every exported component *)
(* ================================================================== *)

(** A component that shows the same view when rendered again from the
    cells it just produced is deterministic. *)
Lemma deterministic_by_rerender {P S C} (f : FunctionComponent P S C) :
  (forall props hooks page,
      view (body f props hooks page)
      = view (body f props (Some (cells (body f props hooks page))) anyPage)) ->
  deterministic f.
Proof.
  intros Hre props1 props2 hooks1 hooks2 page1 page2 <- Hcells.
  rewrite (Hre props1 hooks1 page1), (Hre props1 hooks2 page2), Hcells.
  reflexivity.
Qed.

Lemma exported_deterministic (x : Repository.Exported) :
  In x Repository.exported -> deterministic (Repository.component x).
Proof.
  intros Hin. each_exported Hin;
    apply deterministic_by_rerender; intros props [hooks |] page; reflexivity.
Qed.

(** The output of an exported component does not depend on the page. *)
Lemma exported_ignore_the_page (x : Repository.Exported) :
  In x Repository.exported ->
  forall props hooks page,
    cells (body (Repository.component x) props hooks page)
    = cells (body (Repository.component x) props hooks anyPage) /\
    view (body (Repository.component x) props hooks page)
    = view (body (Repository.component x) props hooks anyPage).
Proof.
  intros Hin. each_exported Hin; intros props hooks page; split; reflexivity.
Qed.

(** What a mounted exported component holds and shows after a run does not
    depend on the page it runs in. *)
Lemma screen_ignores_the_page (x : Repository.Exported)
  (props : Repository.Props x) (events : list Event) (w1 w2 : Dom.World) :
  In x Repository.exported ->
  let f := Repository.component x in
  state (fst (run f props events w1)) = state (fst (run f props events w2)) /\
  shown (fst (run f props events w1)) = shown (fst (run f props events w2)).
Proof.
  intros Hin f. pose proof (exported_ignore_the_page x Hin) as Hpage.
  fold f in Hpage. clearbody f. unfold run.
  assert (H0 : state (fst (mount f props w1)) = state (fst (mount f props w2)) /\
               shown (fst (mount f props w1)) = shown (fst (mount f props w2))).
  { unfold mount.
    destruct (commit_shows (body f props None w1) None w1) as [-> ->].
    destruct (commit_shows (body f props None w2) None w2) as [-> ->].
    destruct (Hpage props None w1) as [-> ->].
    destruct (Hpage props None w2) as [-> ->]. now split. }
  revert H0. generalize (mount f props w1) (mount f props w2).
  induction events as [| ev events IH]; intros iw1 iw2 Hiw; [exact Hiw |].
  simpl. apply IH. destruct Hiw as [Hst Hsh].
  destruct ev as [label | id]; simpl; [| now split].
  rewrite Hsh.
  destruct (clickTarget label (shown (fst iw2))) as [h |]; [| now split].
  unfold dispatch. rewrite Hst.
  destruct (execute f h (state (fst iw2)) false) as [s [|]]; [| now split].
  unfold rerender.
  destruct (commit_shows (body f props (Some s) (snd iw1))
              (Some (slots (fst iw1))) (snd iw1)) as [-> ->].
  destruct (commit_shows (body f props (Some s) (snd iw2))
              (Some (slots (fst iw2))) (snd iw2)) as [-> ->].
  destruct (Hpage props (Some s) (snd iw1)) as [-> ->].
  destruct (Hpage props (Some s) (snd iw2)) as [-> ->]. now split.
Qed.

(** C5: two evaluations of an exported component with equal props and equal
    state values return equal element trees, be they first renders or
    re-renders, and whatever the page they run in holds (its title, its
    nodes, its console, its timers): the output is a function of props and
    state alone.  Called through the scope of their file the two calls end
    alike, and two mounted instances that handle the same events show the
    same tree, on whatever pages. *)
Theorem components_deterministic (x : Repository.Exported)
  (props1 props2 : Repository.Props x)
  (hooks1 hooks2 : option (Repository.Cells x)) (page1 page2 : Dom.World)
  (events : list Event) (w1 w2 : Dom.World) :
  In x Repository.exported ->
  props1 = props2 ->
  cells (body (Repository.component x) props1 hooks1 page1)
  = cells (body (Repository.component x) props2 hooks2 page2) ->
  view (body (Repository.component x) props1 hooks1 page1)
  = view (body (Repository.component x) props2 hooks2 page2) /\
  sameOutcome (Repository.called x props1 hooks1 page1)
    (Repository.called x props2 hooks2 page2) /\
  shown (fst (run (Repository.component x) props1 events w1))
  = shown (fst (run (Repository.component x) props2 events w2)).
Proof.
  intros Hin Hprops Hcells.
  assert (Hview : view (body (Repository.component x) props1 hooks1 page1)
                  = view (body (Repository.component x) props2 hooks2 page2))
    by now apply exported_deterministic.
  split; [exact Hview |]. split.
  - unfold Repository.called, call. rewrite Hview.
    destruct (created _ _); [exact Hview | reflexivity].
  - subst props2. now apply screen_ignores_the_page.
Qed.

Lemma components_deterministic_witness :
  let mounted := None in
  let rerendered :=
    Some {| Hooks04.count := Js.Int 0; Hooks04.searchKey := "";
            Hooks04.filter := "" |} in
  let page1 := Dom.load blankPage in
  let page2 := Dom.setTitle "3 clicks" (Dom.load rootPage) in
  let events := [Click "Increment"; TimerFires 0; Click "Increment"] in
  In Repository.Counter Repository.exported /\
  cells (Hooks04.Counter tt mounted page1)
  = cells (Hooks04.Counter tt rerendered page2) /\
  view (Hooks04.Counter tt mounted page1)
  = view (Hooks04.Counter tt rerendered page2) /\
  shown (fst (run Hooks04.Counter_component tt events page1))
  = shown (fst (run Hooks04.Counter_component tt events page2)).
Proof.
  intros mounted rerendered page1 page2 events.
  assert (Hin : In Repository.Counter Repository.exported) by (simpl; tauto).
  destruct (components_deterministic Repository.Counter tt tt mounted rerendered
              page1 page2 events page1 page2 Hin eq_refl eq_refl)
    as (Hview & _ & Hshown).
  split; [exact Hin |]. split; [reflexivity |].
  split; [exact Hview | exact Hshown].
Defined.

Lemma exported_through_framework (x : Repository.Exported) :
  In x Repository.exported ->
  forall props hooks page,
    throughFramework (view (body (Repository.component x) props hooks page)).
Proof.
  intros Hin. each_exported Hin;
    intros props [hooks |] page; simpl; repeat constructor.
Qed.

(** C6: in every view of every exported component, every handler (and every
    updater handed to a child) consists of calls to a framework updater
    only, and in every state a mounted component reaches the screen shows a
    render of the state it holds: no state change bypasses the framework. *)
Theorem state_changes_through_the_framework (x : Repository.Exported)
  (props : Repository.Props x) (hooks : option (Repository.Cells x))
  (page : Dom.World) (events : list Event) (w : Dom.World) :
  In x Repository.exported ->
  throughFramework (view (body (Repository.component x) props hooks page)) /\
  inSync (Repository.component x) props
    (fst (run (Repository.component x) props events w)).
Proof.
  intros Hin. split.
  - now apply exported_through_framework.
  - apply inSync_run. now apply exported_through_framework.
Qed.

Lemma state_changes_through_the_framework_witness :
  let props := {| DetectiveInTheField03.name := "Sherlock Holmes";
                  DetectiveInTheField03.casesSolvedSoFar := Js.Num (Js.Int 27) |} in
  In Repository.DetectiveInTheFieldClass Repository.exported /\
  throughFramework
    (view (body (ofClass DetectiveInTheField03.DetectiveInTheFieldClass) props None
             anyPage)) /\
  inSync (ofClass DetectiveInTheField03.DetectiveInTheFieldClass) props
    (fst (run (ofClass DetectiveInTheField03.DetectiveInTheFieldClass) props
            (clicks "Solve this case" 3) (Dom.load rootPage))).
Proof.
  intros props.
  assert (Hin : In Repository.DetectiveInTheFieldClass Repository.exported)
    by (simpl; tauto).
  split; [exact Hin |].
  exact (state_changes_through_the_framework Repository.DetectiveInTheFieldClass
           props None anyPage (clicks "Solve this case" 3) (Dom.load rootPage) Hin).
Defined.

(** ** Branching *)

Lemma nth_same_length (vs : list string) : forall (vs' : list string) (i : nat),
  map String.length vs = map String.length vs' ->
  String.length (nth i vs "") = String.length (nth i vs' "").
Proof.
  induction vs as [| v vs IH]; intros [| v' vs'] i Hlen; try discriminate Hlen.
  - reflexivity.
  - injection Hlen as Hv Hrest. destruct i as [| i]; simpl; auto.
Qed.

(** How long a filled template is depends on the lengths of the values
    only. *)
Lemma fill_length (t : list Part) (vs vs' : list string) :
  map String.length vs = map String.length vs' ->
  String.length (fill vs t) = String.length (fill vs' t).
Proof.
  intros Hlen.
  induction t as [| p t IH]; simpl; [reflexivity |].
  rewrite !length_append, IH.
  destruct p; simpl; [reflexivity | now rewrite (nth_same_length vs vs' i Hlen)].
Qed.

Lemma branching_shows_in_lengths (x : Repository.Exported) props hooks props' hooks' :
  builtWithoutBranching x ->
  map String.length
    (map (fun f => f props
                     (cells (body (Repository.component x) props hooks anyPage)))
       (Repository.interpolated x))
  = map String.length
      (map (fun f => f props'
                       (cells (body (Repository.component x) props' hooks' anyPage)))
         (Repository.interpolated x)) ->
  map String.length
    (fragments (view (body (Repository.component x) props hooks anyPage)))
  = map String.length
      (fragments (view (body (Repository.component x) props' hooks' anyPage))).
Proof.
  intros [template Ht] Hlen.
  rewrite (Ht props hooks anyPage), (Ht props' hooks' anyPage).
  rewrite !map_map. apply map_ext. intros t. now apply fill_length.
Qed.

(** One solved case and two solved cases are both one digit long, yet the
    messages differ in length: no single template produces both. *)
Lemma DetectiveInTheField_not_a_template :
  ~ builtWithoutBranching Repository.DetectiveInTheField.
Proof.
  intros Hplain.
  pose (props := {| DetectiveInTheField03.name := "";
                    DetectiveInTheField03.casesSolvedSoFar := Js.undefined |}).
  pose proof (branching_shows_in_lengths Repository.DetectiveInTheField
                props (Some (Js.Int 1)) props (Some (Js.Int 2)) Hplain eq_refl) as H.
  discriminate H.
Qed.

Lemma DetectiveInTheFieldClass_not_a_template :
  ~ builtWithoutBranching Repository.DetectiveInTheFieldClass.
Proof.
  intros Hplain.
  pose (props := {| DetectiveInTheField03.name := "";
                    DetectiveInTheField03.casesSolvedSoFar := Js.undefined |}).
  pose proof (branching_shows_in_lengths Repository.DetectiveInTheFieldClass
                props (Some {| DetectiveInTheField03.casesSolved := Js.Num (Js.Int 1) |})
                props (Some {| DetectiveInTheField03.casesSolved := Js.Num (Js.Int 2) |})
                Hplain eq_refl) as H.
  discriminate H.
Qed.

Lemma Toggle_not_a_template : ~ builtWithoutBranching Repository.Toggle.
Proof.
  intros Hplain.
  pose proof (branching_shows_in_lengths Repository.Toggle
                tt (Some (Js.Bool true)) tt (Some (Js.Bool false)) Hplain eq_refl) as H.
  discriminate H.
Qed.

Lemma stateless_constant_template
  (f : unit -> Dom.World -> Element (Handler Empty_set))
  (name : string) (file : Repository.SourceFile) :
  (forall page, f tt page = f tt anyPage) ->
  builtWithoutBranching
    {| Repository.exportedAs := name; Repository.definedIn := file;
       Repository.component := stateless f; Repository.interpolated := [] |}.
Proof.
  intros Hpage.
  exists (literal (fragments (f tt anyPage))). intros [] hooks page. simpl.
  rewrite (Hpage page).
  unfold literal. rewrite map_map. simpl.
  induction (fragments (f tt anyPage)) as [| s l IH]; simpl; [reflexivity |].
  now rewrite append_empty_r, <- IH.
Qed.

Lemma Detective_template : builtWithoutBranching Repository.Detective.
Proof.
  exists [[Lit "div"];
          [Lit "I'm "; Hole 0; Lit ". I've solved "; Hole 1; Lit " cases."]].
  intros props hooks page. reflexivity.
Qed.

Lemma Counter_template : builtWithoutBranching Repository.Counter.
Proof.
  exists [[Lit "div"]; [Hole 0]; [Lit "button"]; [Lit "onClick"]; [Lit "Increment"]].
  intros props [hooks |] page; simpl; rewrite ?append_empty_r; reflexivity.
Qed.

Lemma CounterWithSideEffects_template :
  builtWithoutBranching Repository.CounterWithSideEffects.
Proof.
  exists [[Lit "div"]; [Hole 0]; [Lit "button"]; [Lit "onClick"]; [Lit "Increment"]].
  intros props [hooks |] page; simpl; rewrite ?append_empty_r; reflexivity.
Qed.

Lemma SlaListPage_template : builtWithoutBranching Repository.SlaListPage.
Proof.
  exists [[Lit "SlaPageTitle"];
          [Lit "SlaActionBar"]; [Lit "searchText"]; [Hole 0]; [Lit "setSearchText"];
          [Lit "SlaFilters"]; [Lit "filters"]; [Hole 1]; [Lit "setFilters"];
          [Lit "SlaTable"]; [Lit "searchText"]; [Hole 0]; [Lit "filters"]; [Hole 1]].
  intros props [hooks |] page; simpl; rewrite ?append_empty_r; reflexivity.
Qed.

Lemma PageTitle_template : builtWithoutBranching Repository.PageTitle.
Proof.
  exists [[Lit "div"]; [Lit "style"]; [Lit "fontSize"]; [Lit "40px"];
          [Lit "color"]; [Lit "teal"]; [Lit "title"]; [Hole 0]].
  intros props hooks page. simpl. rewrite ?append_empty_r. reflexivity.
Qed.




(* ================================================================== *)
(** * 02-Detective.tsx: the list of detectives *)
(* ================================================================== *)

(** C10: DetectivesList renders exactly two Detective children in fixed
    order, 'Sherlock Holmes' with 27 solved cases and then 'CID Daya' with
    0, and Detective renders "I'm <name>. I've solved <casesSolved> cases."
    with the plural 'cases' for every count, 0 and 1 included. *)
Theorem DetectivesList_renders (name : string) (casesSolved : Js.number)
  (page : Dom.World) :
  Detective02.DetectivesList tt page
  = Host "div" []
      [ Component "Detective" (Some "Sherlock Holmes")
          [("name", PString "Sherlock Holmes"); ("casesSolved", PNumber (Js.Int 27))];
        Component "Detective" (Some "CID Daya")
          [("name", PString "CID Daya"); ("casesSolved", PNumber (Js.Int 0))] ] /\
  Detective02.Detective
    {| Detective02.name := name; Detective02.casesSolved := casesSolved |} page
  = Host "div" []
      [Text ("I'm " ++ name ++ ". I've solved "
               ++ Js.numberToString casesSolved ++ " cases.")] /\
  textContent
    (Detective02.Detective
       {| Detective02.name := name; Detective02.casesSolved := Js.Int 0 |} page)
  = ["I'm " ++ name ++ ". I've solved 0 cases."] /\
  textContent
    (Detective02.Detective
       {| Detective02.name := name; Detective02.casesSolved := Js.Int 1 |} page)
  = ["I'm " ++ name ++ ". I've solved 1 cases."].
Proof. repeat split. Qed.

(* ================================================================== *)
(** * Rendering a tree *)
(* ================================================================== *)

Section RenderFacts.
Context {H : Type}.

Lemma Element_nested_ind (P : Element H -> Prop) :
  (forall s, P (Text s)) ->
  (forall n, P (NumberChild n)) ->
  (forall fields, P (ObjectChild fields)) ->
  (forall tag props children, Forall P children -> P (Host tag props children)) ->
  (forall children, Forall P children -> P (Fragment children)) ->
  (forall type key props, P (Component type key props)) ->
  forall e, P e.
Proof.
  intros HText HNumber HObject HHost HFragment HComponent.
  fix IH 1. intros e.
  destruct e as [s | n | fields | tag props children | children | type key props];
    [apply HText | apply HNumber | apply HObject | apply HHost | apply HFragment
     | apply HComponent];
    induction children as [| c l IHl]; constructor; auto.
Qed.

Lemma renderTree_Host (scope : Scope H) page stack tag props children :
  ReactDom.renderTree scope page stack (Host tag props children)
  = match ReactDom.renderChildren (ReactDom.renderTree scope page stack) children with
    | Js.Throw error => Js.Throw error
    | Js.Normal r => Js.Normal (Host tag props r)
    end.
Proof. destruct stack; reflexivity. Qed.

Lemma renderTree_Fragment (scope : Scope H) page stack children :
  ReactDom.renderTree scope page stack (Fragment children)
  = match ReactDom.renderChildren (ReactDom.renderTree scope page stack) children with
    | Js.Throw error => Js.Throw error
    | Js.Normal r => Js.Normal (Fragment r)
    end.
Proof. destruct stack; reflexivity. Qed.

Lemma renderChildren_agree (go1 go2 : Element H -> Js.Completion (Element H))
  (N : string -> Prop) (children : list (Element H)) :
  Forall (fun e => Forall N (componentNames e) -> go1 e = go2 e) children ->
  Forall N (flat_map componentNames children) ->
  ReactDom.renderChildren go1 children = ReactDom.renderChildren go2 children.
Proof.
  induction children as [| c l IHl]; intros Hgo HN; [reflexivity |].
  simpl in HN. apply Forall_app in HN. destruct HN as [Hc Hl].
  inversion Hgo as [| ? ? Hhead Htail]; subst.
  simpl. now rewrite (Hhead Hc), (IHl Htail Hl).
Qed.

(** What a tree renders to depends on the scope only at the names the tree
    reaches: two scopes that agree on a set of names closed under the
    components they bind render every tree over those names alike. *)
Lemma renderTree_agree (s1 s2 : Scope H) (N : string -> Prop) (page : Dom.World) :
  (forall name, N name -> s1 name = s2 name) ->
  (forall name c props, N name -> s1 name = Some c ->
                        Forall N (componentNames (c props page))) ->
  forall stack e,
    Forall N (componentNames e) ->
    ReactDom.renderTree s1 page stack e = ReactDom.renderTree s2 page stack e.
Proof.
  intros Hagree Hclosed.
  induction stack as [| stack IHstack]; intros e;
    induction e as [s | n | fields | tag props children IHc | children IHc
                    | type key props] using Element_nested_ind;
    intros HN; try reflexivity;
    try (rewrite !renderTree_Host, (renderChildren_agree _ _ N children IHc HN);
         reflexivity);
    try (rewrite !renderTree_Fragment, (renderChildren_agree _ _ N children IHc HN);
         reflexivity).
  simpl in *. inversion HN as [| ? ? Htype _]; subst.
  rewrite <- (Hagree type Htype).
  destruct (s1 type) as [c |] eqn:Hc; [| reflexivity].
  apply IHstack. now apply (Hclosed type).
Qed.

(** A tree that names no component renders the same in every scope. *)
Lemma renderTree_without_components (s1 s2 : Scope H) page stack e :
  componentNames e = [] ->
  ReactDom.renderTree s1 page stack e = ReactDom.renderTree s2 page stack e.
Proof.
  intros He. apply (renderTree_agree s1 s2 (fun _ => False)).
  - contradiction.
  - contradiction.
  - rewrite He. constructor.
Qed.

End RenderFacts.

(* ================================================================== *)
(** * README.tsx and index.tsx: mounting on the page *)
(* ================================================================== *)

(** [getElementById] only ever returns element nodes. *)
Lemma findById_element (id : string) :
  forall n m, Dom.findById id n = Some m ->
    exists tagName attributes childNodes,
      m = Dom.ElementNode tagName attributes childNodes.
Proof.
  fix IH 1. intros n m.
  destruct n as [data | tagName attributes childNodes]; simpl; [discriminate |].
  destruct (Dom.hasId id attributes).
  - intros [= <-]. now exists tagName, attributes, childNodes.
  - induction childNodes as [| c l IHl]; [discriminate |].
    destruct (Dom.findById id c) as [r |] eqn:Hc.
    + intros [= <-]. exact (IH c r Hc).
    + exact IHl.
Qed.

(** Rendering into what [getElementById] found gets past the container
    check. *)
Lemma render_into_found {H} (scope : Scope H) (w : Dom.World) (stack : nat)
  (element : Element H) (id : string) (node : Dom.Node) :
  Dom.getElementById w id = Some node ->
  ReactDom.render scope w stack element (Dom.getElementById w id)
  = match ReactDom.renderTree scope w stack element with
    | Js.Normal host =>
        Js.Normal {| ReactDom.container := node; ReactDom.content := host |}
    | Js.Throw error => Js.Throw error
    end.
Proof.
  intros Hfind. rewrite Hfind. unfold Dom.getElementById in Hfind.
  destruct (findById_element id _ _ Hfind) as (t & a & c & ->). reflexivity.
Qed.

(** C2, as amended: on every host document that has an element with id
    'root', evaluating the top level of README.tsx and of index.tsx
    completes without raising an error (for index.tsx, given room on the
    call stack for the one component call): the lookup finds the element,
    the container check and the rendering of the tree pass, and the element
    holds the heading, respectively Sherlock's line.  (The code has no error
    branch of its own; the result of the lookup goes to [render]
    unchecked.) *)
Theorem top_level_completes_with_root (w : Dom.World) (stack : nat) :
  Dom.getElementById w "root" <> None ->
  (1 <= stack)%nat ->
  exists node,
    Dom.getElementById w "root" = Some node /\
    Readme.main stack w
    = Js.Normal
        {| ReactDom.container := node;
           ReactDom.content :=
             Host "h1" [("id", PString "title")] [Text "Hello, World!"] |} /\
    Index.main Sherlock01.Sherlock stack w
    = Js.Normal
        {| ReactDom.container := node;
           ReactDom.content :=
             Host "div" []
               [Text "Hi, My name is Sherlock Holmes. I've solved 27 cases."] |} /\
    Js.completes (Readme.main stack w) = true /\
    Js.completes (Index.main Sherlock01.Sherlock stack w) = true.
Proof.
  intros Hroot Hstack.
  destruct (Dom.getElementById w "root") as [node |] eqn:Hfind; [| contradiction].
  exists node. split; [reflexivity |].
  assert (Hreadme : Readme.main stack w
                    = Js.Normal
                        {| ReactDom.container := node;
                           ReactDom.content :=
                             Host "h1" [("id", PString "title")]
                               [Text "Hello, World!"] |}).
  { unfold Readme.main. rewrite (render_into_found _ _ _ _ _ node Hfind).
    destruct stack; reflexivity. }
  assert (Hindex : Index.main Sherlock01.Sherlock stack w
                   = Js.Normal
                       {| ReactDom.container := node;
                          ReactDom.content :=
                            Host "div" []
                              [Text "Hi, My name is Sherlock Holmes. I've solved 27 cases."] |}).
  { unfold Index.main. rewrite (render_into_found _ _ _ _ _ node Hfind).
    destruct stack as [| [| stack]]; [lia | reflexivity | reflexivity]. }
  rewrite Hreadme, Hindex. repeat split.
Qed.

Lemma top_level_completes_with_root_witness :
  Dom.getElementById (Dom.load rootPage) "root" <> None /\
  Js.completes (Readme.main 1 (Dom.load rootPage)) = true /\
  Js.completes (Index.main Sherlock01.Sherlock 1 (Dom.load rootPage)) = true.
Proof.
  assert (Hroot : Dom.getElementById (Dom.load rootPage) "root" <> None)
    by discriminate.
  destruct (top_level_completes_with_root (Dom.load rootPage) 1 Hroot (le_n 1))
    as (node & _ & _ & _ & Hreadme & Hindex).
  split; [exact Hroot | split; [exact Hreadme | exact Hindex]].
Defined.

(** C2 as stated fails: on a document without a 'root' element the lookup
    yields [null], and [render] throws. *)
Lemma top_level_throws_without_root :
  Dom.getElementById (Dom.load blankPage) "root" = None /\
  Readme.main 1 (Dom.load blankPage)
  = Js.Throw Js.TargetContainerIsNotADomElement /\
  Index.main Sherlock01.Sherlock 1 (Dom.load blankPage)
  = Js.Throw Js.TargetContainerIsNotADomElement.
Proof. repeat split. Qed.

(** ** Which file a component name comes from *)

Lemma exported_names_own_file (x : Repository.Exported) :
  In x Repository.exported ->
  forall props hooks page,
    Forall (notFromAnotherFile (Repository.definedIn x))
      (componentNames (view (body (Repository.component x) props hooks page))).
Proof.
  intros Hin. each_exported Hin; intros props [hooks |] page; simpl;
    repeat constructor;
    intros z Hz Hname; each_exported Hz;
      solve [reflexivity | discriminate Hname].
Qed.



(* ================================================================== *)
(** * 04-Hooks.tsx: the counters *)
(* ================================================================== *)

Section CounterFacts.
Import Hooks04.

Lemma counter_mount w :
  mount Counter_component tt w
  = (counterInstance {| count := Js.Int 0; searchKey := ""; filter := "" |}, w).
Proof. reflexivity. Qed.

Lemma counter_step ev c w :
  step Counter_component tt ev (counterInstance c, w)
  = match ev with
    | Click label =>
        if String.eqb "Increment" label
        then (counterInstance
                {| count := Js.add (count c) (Js.Int 1);
                   searchKey := searchKey c; filter := filter c |}, w)
        else (counterInstance c, w)
    | TimerFires id => (counterInstance c, Dom.fire id w)
    end.
Proof.
  destruct ev as [label | id]; [| reflexivity].
  cbn [step fst snd shown counterInstance view Counter useState option_map
         clickTarget hasLabel].
  destruct (String.eqb "Increment" label); [| reflexivity].
  cbn [onClick String.eqb Ascii.eqb Bool.eqb]. unfold dispatch.
  cbn [execute state counterInstance unchanged write Counter_component].
  destruct (Js.sameValue (Js.add (count c) (Js.Int 1)) (count c)) eqn:Hsame;
    [| reflexivity].
  apply sameValue_eq in Hsame. rewrite Hsame. now destruct c.
Qed.

Lemma counter_clicks k : forall n w,
  - Js.MAX_EXACT <= n -> n + Z.of_nat k <= Js.MAX_EXACT ->
  fold_left (fun iw ev => step Counter_component tt ev iw)
    (clicks "Increment" k)
    (counterInstance {| count := Js.Int n; searchKey := ""; filter := "" |}, w)
  = (counterInstance
       {| count := Js.Int (n + Z.of_nat k); searchKey := ""; filter := "" |}, w).
Proof.
  induction k as [| k IH]; intros n w Hlo Hhi.
  - simpl. now rewrite Z.add_0_r.
  - unfold clicks in *. cbn [repeat fold_left]. rewrite counter_step.
    cbn [String.eqb Ascii.eqb Bool.eqb count searchKey filter].
    rewrite add_exact by lia. rewrite IH by lia.
    do 4 f_equal. lia.
Qed.

End CounterFacts.

(** X1: after [k] clicks on 'Increment', with [k] at most [2^53], [Counter]
    holds and shows the count [k]; nothing else on the page changes. *)
Theorem Counter_counts_clicks (k : nat) (w : Dom.World) :
  Z.of_nat k <= Js.MAX_EXACT ->
  let iw := run Hooks04.Counter_component tt (clicks "Increment" k) w in
  Hooks04.count (state (fst iw)) = Js.Int (Z.of_nat k) /\
  textContent (shown (fst iw))
  = [Js.numberToString (Js.Int (Z.of_nat k)); "Increment"] /\
  snd iw = w.
Proof.
  intros Hk iw. subst iw. unfold run.
  rewrite counter_mount, counter_clicks by (unfold Js.MAX_EXACT in *; lia).
  repeat split.
Qed.

Lemma Counter_counts_clicks_witness :
  let iw := run Hooks04.Counter_component tt (clicks "Increment" 3)
              (Dom.load rootPage) in
  3 <= Js.MAX_EXACT /\
  Hooks04.count (state (fst iw)) = Js.Int 3 /\
  textContent (shown (fst iw)) = ["3"; "Increment"].
Proof.
  intros iw.
  assert (Hk : Z.of_nat 3 <= Js.MAX_EXACT) by (unfold Js.MAX_EXACT; simpl; lia).
  destruct (Counter_counts_clicks 3 (Dom.load rootPage) Hk) as (Hc & Ht & _).
  split; [exact Hk | split; [exact Hc | exact Ht]].
Defined.

(** X2: [Counter] declares [searchKey] and [filter] and never updates them:
    whatever is clicked and whichever timers fire, both stay empty, and the
    text on screen is the count the component holds and the button's
    label. *)
Theorem Counter_never_updates_searchKey_or_filter
  (events : list Event) (w : Dom.World) :
  let i := fst (run Hooks04.Counter_component tt events w) in
  Hooks04.searchKey (state i) = "" /\ Hooks04.filter (state i) = "" /\
  textContent (shown i)
  = [Js.numberToString (Hooks04.count (state i)); "Increment"].
Proof.
  intros i. subst i.
  assert (Hinv : exists c,
             fst (run Hooks04.Counter_component tt events w) = counterInstance c /\
             Hooks04.searchKey c = "" /\ Hooks04.filter c = "").
  { apply (run_invariant Hooks04.Counter_component tt
             (fun iw => exists c, fst iw = counterInstance c /\
                                  Hooks04.searchKey c = "" /\
                                  Hooks04.filter c = "")).
    - exists {| Hooks04.count := Js.Int 0; Hooks04.searchKey := "";
                Hooks04.filter := "" |}.
      repeat split.
    - intros ev [i w'] (c & Hi & Hs & Hf). simpl in Hi. subst i.
      rewrite counter_step. destruct ev as [label | id].
      + destruct (String.eqb "Increment" label);
          eexists; repeat split; eassumption.
      + exists c. repeat split; assumption. }
  destruct Hinv as (c & -> & Hs & Hf).
  split; [exact Hs |]. split; [exact Hf |]. reflexivity.
Qed.

(* ================================================================== *)
(** * 04-Hooks.tsx: the side effects *)
(* ================================================================== *)

(** X3: in every state [CounterWithSideEffects] reaches on a freshly loaded
    page, after clicks and timer expiries in any order, the document title
    is "<count> clicks" for the count it holds. *)
Theorem title_follows_the_count (events : list Event) (page : Dom.Node) :
  let iw := run Hooks04.CounterWithSideEffects_component tt events
              (Dom.load page) in
  Dom.title (snd iw) = Js.numberToString (state (fst iw)) ++ " clicks".
Proof.
  intros iw. destruct (effects_run events page) as (_ & Htitle & _).
  exact Htitle.
Qed.

(** X5: a click that changes the count re-renders [CounterWithSideEffects],
    and the cleanup clears the timer of the render before: when that
    timer's expiry comes after the click, nothing happens.  A click that
    leaves the count as it is (adding one to [2^53] gives [2^53]) is
    ignored by the framework: nothing is rendered, no effect or cleanup
    runs, and the timer stays pending. *)
Theorem cleared_timer_never_fires (events : list Event) (page : Dom.Node)
  (t : Dom.Timer) :
  let iw := run Hooks04.CounterWithSideEffects_component tt events
              (Dom.load page) in
  let clicked :=
    step Hooks04.CounterWithSideEffects_component tt (Click "Increment") iw in
  In t (Dom.timers (snd iw)) ->
  (Js.sameValue (Js.add (state (fst iw)) (Js.Int 1)) (state (fst iw)) = false ->
   ~ In t (Dom.timers (snd clicked)) /\
   Dom.timers (snd clicked) = [usefulTimer (Dom.nextTimerId (snd iw))] /\
   step Hooks04.CounterWithSideEffects_component tt (TimerFires (Dom.timerId t))
     clicked
   = clicked) /\
  (Js.sameValue (Js.add (state (fst iw)) (Js.Int 1)) (state (fst iw)) = true ->
   clicked = iw /\ In t (Dom.timers (snd clicked))).
Proof.
  intros iw clicked Ht.
  destruct (effects_run events page) as (Hinv & _ & Hfresh). fold iw in Hinv, Hfresh.
  destruct Hinv as (id & count & Hslots & Hshown & Hw).
  destruct (Hfresh t Ht) as [_ Hlt].
  pose proof (side_effects_click_step iw Hshown) as Hstep. fold clicked in Hstep.
  split; intros Hsame; rewrite Hsame in Hstep.
  - rewrite Hslots in Hstep.
    destruct (side_effects_rerender (Js.add (state (fst iw)) (Js.Int 1))
                id count (snd iw) Hw) as (_ & _ & _ & _ & Htm & _).
    rewrite <- Hstep in Htm.
    split; [| split; [exact Htm |]].
    + rewrite Htm. intros [Heq | []]. subst t. simpl in Hlt. lia.
    + destruct clicked as [i' w']. simpl in Htm |- *.
      unfold Dom.fire. rewrite Htm. simpl.
      destruct (Nat.eqb_spec (Dom.nextTimerId (snd iw)) (Dom.timerId t)); [lia |].
      reflexivity.
  - rewrite Hstep. destruct iw as [[st sh sl] w]. split; [reflexivity | exact Ht].
Qed.

Lemma cleared_timer_never_fires_witness :
  let iw := run Hooks04.CounterWithSideEffects_component tt [] (Dom.load rootPage) in
  let t := {| Dom.timerId := 0%nat; Dom.delay := 5000;
              Dom.task := Dom.Log "Some useful message" |} in
  let clicked :=
    step Hooks04.CounterWithSideEffects_component tt (Click "Increment") iw in
  In t (Dom.timers (snd iw)) /\
  Dom.timers (snd clicked) = [usefulTimer 1] /\
  step Hooks04.CounterWithSideEffects_component tt (TimerFires 0) clicked = clicked.
Proof.
  intros iw t clicked.
  assert (Ht : In t (Dom.timers (snd iw))) by (simpl; tauto).
  destruct (cleared_timer_never_fires [] rootPage t Ht) as [Hchanged _].
  destruct (Hchanged eq_refl) as (_ & Htimers & Hfire).
  split; [exact Ht | split; [exact Htimers | exact Hfire]].
Defined.

Section ConsoleFacts.
Import Hooks04.

Lemma side_effects_click page k :
  Z.of_nat (S k) <= Js.MAX_EXACT ->
  step CounterWithSideEffects_component tt (Click "Increment")
    (sideEffectsAfter page k)
  = sideEffectsAfter page (S k).
Proof.
  intros Hk. unfold Js.MAX_EXACT in Hk.
  assert (Hadd : Js.add (Js.Int (Z.of_nat k)) (Js.Int 1) = Js.Int (Z.of_nat (S k))).
  { rewrite add_exact by (unfold Js.MAX_EXACT; lia). f_equal. lia. }
  assert (Hstale : sameDeps [Js.Int (Z.of_nat k)] [Js.Int (Z.of_nat (S k))] = false).
  { simpl. rewrite andb_true_r. apply Z.eqb_neq. lia. }
  assert (Hchanged : Js.sameValue (Js.Int (Z.of_nat (S k))) (Js.Int (Z.of_nat k))
                     = false).
  { cbn [Js.sameValue]. apply Z.eqb_neq. lia. }
  unfold sideEffectsAfter at 1.
  cbn [step fst snd shown view CounterWithSideEffects useState clickTarget
         hasLabel onClick String.eqb Ascii.eqb Bool.eqb].
  unfold dispatch.
  cbn [execute state unchanged write CounterWithSideEffects_component].
  rewrite Hadd, Hchanged.
  unfold rerender, commit.
  cbn [body CounterWithSideEffects_component CounterWithSideEffects
         useState effects slots].
  unfold timerSlots at 1 2.
  cbn [cleanupStale rerunStale stale lastDeps deps cleanup runCleanup effect].
  rewrite Hstale.
  cbn -[Js.numberToString Z.of_nat]. rewrite Nat.eqb_refl.
  cbn -[Js.numberToString Z.of_nat].
  unfold sideEffectsAfter, timerSlots. cbn [consoleAfter].
  unfold Dom.consoleLog.
  cbn [Dom.title Dom.documentElement Dom.console Dom.timers Dom.nextTimerId].
  rewrite <- app_assoc. reflexivity.
Qed.

Lemma side_effects_clicks page k : forall j,
  Z.of_nat (j + k) <= Js.MAX_EXACT ->
  fold_left (fun iw ev => step CounterWithSideEffects_component tt ev iw)
    (clicks "Increment" k) (sideEffectsAfter page j)
  = sideEffectsAfter page (j + k).
Proof.
  induction k as [| k IH]; intros j Hk.
  - simpl. now rewrite Nat.add_0_r.
  - unfold clicks in *. cbn [repeat fold_left].
    rewrite side_effects_click by lia.
    rewrite IH by (rewrite Nat.add_succ_l, <- Nat.add_succ_r; exact Hk).
    f_equal. lia.
Qed.

Lemma consoleAfter_counts k :
  count_occ string_dec (consoleAfter k) "Runs on each render" = S k /\
  count_occ string_dec (consoleAfter k) "Runs only on the first render" = 1%nat /\
  count_occ string_dec (consoleAfter k) "Runs only when count changes" = S k /\
  count_occ string_dec (consoleAfter k) "Some useful message" = 0%nat.
Proof.
  induction k as [| k (H1 & H2 & H3 & H4)]; [repeat split |].
  cbn [consoleAfter]. rewrite !count_occ_app, H1, H2, H3, H4.
  repeat split; simpl; lia.
Qed.

End ConsoleFacts.

(** X4: after mounting on a fresh page and [k] clicks on 'Increment' ([k] at
    most [2^53]) [CounterWithSideEffects] has logged "Runs on each render"
    and "Runs only when count changes" [k + 1] times each, "Runs only on the
    first render" once and the timer's message never; the title is
    "<k> clicks" and the one pending timer is the one set after the last
    render. *)
Theorem effects_run_as_their_dependencies_say (k : nat) (page : Dom.Node) :
  Z.of_nat k <= Js.MAX_EXACT ->
  let w := snd (run Hooks04.CounterWithSideEffects_component tt
                  (clicks "Increment" k) (Dom.load page)) in
  Dom.console w = consoleAfter k /\
  count_occ string_dec (Dom.console w) "Runs on each render" = S k /\
  count_occ string_dec (Dom.console w) "Runs only on the first render" = 1%nat /\
  count_occ string_dec (Dom.console w) "Runs only when count changes" = S k /\
  count_occ string_dec (Dom.console w) "Some useful message" = 0%nat /\
  Dom.timers w = [ {| Dom.timerId := k; Dom.delay := 5000;
                      Dom.task := Dom.Log "Some useful message" |} ].
Proof.
  intros Hk w. subst w. unfold run.
  change (mount Hooks04.CounterWithSideEffects_component tt (Dom.load page))
    with (sideEffectsAfter page 0).
  rewrite side_effects_clicks by exact Hk.
  cbn [Nat.add snd sideEffectsAfter Dom.console Dom.timers].
  destruct (consoleAfter_counts k) as (H1 & H2 & H3 & H4).
  repeat split; assumption.
Qed.

Lemma effects_run_as_their_dependencies_say_witness :
  let w := snd (run Hooks04.CounterWithSideEffects_component tt
                  (clicks "Increment" 2) (Dom.load rootPage)) in
  2 <= Js.MAX_EXACT /\
  Dom.console w
  = [ "Runs on each render"; "Runs only on the first render";
      "Runs only when count changes";
      "Runs on each render"; "Runs only when count changes";
      "Runs on each render"; "Runs only when count changes" ].
Proof.
  intros w.
  assert (Hk : Z.of_nat 2 <= Js.MAX_EXACT) by (unfold Js.MAX_EXACT; simpl; lia).
  destruct (effects_run_as_their_dependencies_say 2 rootPage Hk) as (Hc & _).
  split; [exact Hk | exact Hc].
Defined.

Lemma same_view_from (events : list Event) :
  forall (c : Hooks04.CounterCells)
         (iw : Instance Js.number Hooks04.CountUpdate * Dom.World)
         (w2 : Dom.World),
    state (fst iw) = Hooks04.count c ->
    shown (fst iw)
    = view (Hooks04.CounterWithSideEffects tt (Some (Hooks04.count c)) anyPage) ->
    markup (shown (fst (fold_left
                          (fun iw ev =>
                             step Hooks04.CounterWithSideEffects_component tt ev iw)
                          events iw)))
    = markup (shown (fst (fold_left
                            (fun iw ev => step Hooks04.Counter_component tt ev iw)
                            events (counterInstance c, w2)))).
Proof.
  induction events as [| ev events IH]; intros c iw w2 Hst Hsh.
  - simpl. rewrite Hsh. reflexivity.
  - cbn [fold_left]. rewrite counter_step.
    destruct ev as [label | id].
    + destruct (String.eqb "Increment" label) eqn:Hlabel.
      * apply String.eqb_eq in Hlabel. subst label.
        rewrite side_effects_click_step by (now rewrite Hst).
        rewrite Hst.
        destruct (Js.sameValue (Js.add (Hooks04.count c) (Js.Int 1))
                    (Hooks04.count c)) eqn:Hsame.
        -- apply sameValue_eq in Hsame.
           apply IH; cbn [fst state shown Hooks04.count]; rewrite Hsame;
             [reflexivity | exact Hsh].
        -- unfold rerender.
           destruct (commit_shows
                       (body Hooks04.CounterWithSideEffects_component tt
                          (Some (Js.add (Hooks04.count c) (Js.Int 1))) (snd iw))
                       (Some (slots (fst iw))) (snd iw)) as [Hst' Hsh'].
           apply IH; [rewrite Hst' | rewrite Hsh']; reflexivity.
      * rewrite other_click_step by (rewrite ?Hst; assumption). now apply IH.
    + now apply IH.
Qed.

(** X6: [CounterWithSideEffects] shows what [Counter] shows: after the same
    events, on whatever pages, their markup is the same. *)
Theorem side_effects_do_not_change_the_view (events : list Event)
  (w1 w2 : Dom.World) :
  markup (shown (fst (run Hooks04.CounterWithSideEffects_component tt events w1)))
  = markup (shown (fst (run Hooks04.Counter_component tt events w2))).
Proof.
  unfold run. rewrite counter_mount.
  destruct (commit_shows (body Hooks04.CounterWithSideEffects_component tt None w1)
              None w1) as [Hst Hsh].
  apply same_view_from; unfold mount; [rewrite Hst | rewrite Hsh]; reflexivity.
Qed.

(* ================================================================== *)
(** * 03-DetectiveInTheField.tsx: the edges of the count *)
(* ================================================================== *)

Lemma class_stays_NaN (props : DetectiveInTheField03.IProps) (k : nat) :
  forall w,
    fold_left
      (fun iw ev =>
         step (ofClass DetectiveInTheField03.DetectiveInTheFieldClass) props ev iw)
      (clicks "Solve this case" k)
      (classInstance props {| DetectiveInTheField03.casesSolved := Js.Num Js.NaN |}, w)
    = (classInstance props {| DetectiveInTheField03.casesSolved := Js.Num Js.NaN |}, w).
Proof.
  induction k as [| k IH]; intros w; [reflexivity |].
  unfold clicks in *. cbn [repeat fold_left]. rewrite class_click. apply IH.
Qed.

(** X7: without [casesSolvedSoFar] the class component never counts: it holds
    [undefined] until the first click and [NaN] from then on, and after any
    number of clicks it still shows the message of a detective in the
    making. *)
Theorem class_never_counts_without_the_prop
  (props : DetectiveInTheField03.IProps) (k : nat) (w : Dom.World) :
  DetectiveInTheField03.casesSolvedSoFar props = Js.undefined ->
  let i := fst (run (ofClass DetectiveInTheField03.DetectiveInTheFieldClass) props
                  (clicks "Solve this case" k) w) in
  DetectiveInTheField03.casesSolved (state i)
  = (if Nat.eqb k 0 then Js.undefined else Js.Num Js.NaN) /\
  solvedCasesMessage (shown i) = "I'm a detective in the making.".
Proof.
  intros Hprop i. subst i. unfold run. rewrite class_mount, Hprop.
  destruct k as [| k]; [split; reflexivity |].
  unfold clicks. cbn [repeat fold_left]. rewrite class_click.
  cbn [DetectiveInTheField03.casesSolved Js.ToNumber Js.add].
  fold (clicks "Solve this case" k). rewrite class_stays_NaN.
  split; reflexivity.
Qed.

Lemma class_never_counts_without_the_prop_witness :
  let props := {| DetectiveInTheField03.name := "Sherlock Holmes";
                  DetectiveInTheField03.casesSolvedSoFar := Js.undefined |} in
  let i := fst (run (ofClass DetectiveInTheField03.DetectiveInTheFieldClass) props
                  (clicks "Solve this case" 5) (Dom.load rootPage)) in
  DetectiveInTheField03.casesSolvedSoFar props = Js.undefined /\
  DetectiveInTheField03.casesSolved (state i) = Js.Num Js.NaN /\
  solvedCasesMessage (shown i) = "I'm a detective in the making.".
Proof.
  intros props i.
  destruct (class_never_counts_without_the_prop props 5 (Dom.load rootPage) eq_refl)
    as [Hstate Hmsg].
  split; [reflexivity | split; [exact Hstate | exact Hmsg]].
Defined.

Lemma class_agrees_when_prop_given_witness :
  let props := {| DetectiveInTheField03.name := "Sherlock Holmes";
                  DetectiveInTheField03.casesSolvedSoFar := Js.Num (Js.Int 27) |} in
  DetectiveInTheField03.casesSolvedSoFar props = Js.Num (Js.Int 27) /\
  markup (shown (fst (run (ofClass DetectiveInTheField03.DetectiveInTheFieldClass)
                        props (clicks "Solve this case" 2) (Dom.load rootPage))))
  = markup (shown (fst (run DetectiveInTheField03.DetectiveInTheField_component
                          props (clicks "Solve this case" 2) (Dom.load rootPage)))).
Proof.
  intros props. split; [reflexivity |].
  exact (class_agrees_when_prop_given props (Js.Int 27) 2 (Dom.load rootPage)
           eq_refl).
Defined.

Lemma field_saturated (props : DetectiveInTheField03.IProps) (k : nat) :
  forall w,
    fold_left
      (fun iw ev =>
         step DetectiveInTheField03.DetectiveInTheField_component props ev iw)
      (clicks "Solve this case" k) (fieldInstance props (Js.Int (2 ^ 53)), w)
    = (fieldInstance props (Js.Int (2 ^ 53)), w).
Proof.
  induction k as [| k IH]; intros w; [reflexivity |].
  unfold clicks in *. cbn [repeat fold_left]. rewrite field_click.
  rewrite add_one_above_2_53. apply IH.
Qed.

(** X9: the count stops at [2^53]: started there, [DetectiveInTheField] holds
    and shows 9007199254740992 solved cases after any number of clicks. *)
Theorem count_stops_at_2_53 (props : DetectiveInTheField03.IProps) (k : nat)
  (w : Dom.World) :
  DetectiveInTheField03.casesSolvedSoFar props = Js.Num (Js.Int (2 ^ 53)) ->
  let i := fst (run DetectiveInTheField03.DetectiveInTheField_component props
                  (clicks "Solve this case" k) w) in
  state i = Js.Int (2 ^ 53) /\
  solvedCasesMessage (shown i) = "I've solved 9007199254740992 cases.".
Proof.
  intros Hprop i. subst i. unfold run. rewrite field_mount, Hprop.
  cbn [Js.orDefault]. rewrite field_saturated. split; reflexivity.
Qed.

Lemma count_stops_at_2_53_witness :
  let props := {| DetectiveInTheField03.name := "Sherlock Holmes";
                  DetectiveInTheField03.casesSolvedSoFar := Js.Num (Js.Int (2 ^ 53)) |} in
  DetectiveInTheField03.casesSolvedSoFar props = Js.Num (Js.Int (2 ^ 53)) /\
  state (fst (run DetectiveInTheField03.DetectiveInTheField_component props
                (clicks "Solve this case" 4) (Dom.load rootPage)))
  = Js.Int (2 ^ 53).
Proof.
  intros props. split; [reflexivity |].
  exact (proj1 (count_stops_at_2_53 props 4 (Dom.load rootPage) eq_refl)).
Defined.

(* ================================================================== *)
(** * 04-Hooks.tsx: the colour of the toggle *)
(* ================================================================== *)

(** X10: [Toggle] starts black and changes colour on every click: after [k]
    clicks it is red exactly when [k] is odd. *)
Theorem Toggle_is_red_after_odd_clicks (k : nat) (w : Dom.World) :
  let iw := run Hooks04.Toggle_component tt
              (clicks "Click to change the color" k) w in
  cssColor (shown (fst iw)) = Some (if Nat.odd k then "red" else "black") /\
  state (fst iw) = Js.Bool (Nat.odd k) /\
  snd iw = w.
Proof.
  intros iw. subst iw. rewrite toggle_clicks.
  destruct (Nat.odd k); repeat split.
Qed.

(* ================================================================== *)
(** * 05-ThinkingInReact.tsx: names the file does not bind *)
(* ================================================================== *)

(** X11: [SlaListPage] cannot be called: its JSX names [SlaFilters], which
    the file neither defines nor imports, so every call, on a first render
    and on any re-render, throws a [ReferenceError] for that name before a
    tree is returned.  Binding [SlaFilters] alone moves the error to
    [SlaTable]; with both bound the call returns the tree. *)
Theorem SlaListPage_throws_a_ReferenceError
  (hooks : option ThinkingInReact05.SlaListPageCells) (page : Dom.World) :
  ThinkingInReact05.SlaListPage_call hooks page
  = Js.Throw (Js.ReferenceError "SlaFilters") /\
  Repository.called Repository.SlaListPage tt hooks page
  = Js.Throw (Js.ReferenceError "SlaFilters") /\
  call ("SlaFilters" :: ThinkingInReact05.bound)
    ThinkingInReact05.SlaListPage_component tt hooks page
  = Js.Throw (Js.ReferenceError "SlaTable") /\
  call ("SlaFilters" :: "SlaTable" :: ThinkingInReact05.bound)
    ThinkingInReact05.SlaListPage_component tt hooks page
  = Js.Normal (ThinkingInReact05.SlaListPage tt hooks page).
Proof. destruct hooks; repeat split. Qed.

(** X13: [PageTitle] cannot be rendered: the only child of its [div] is the
    props object itself, which react-dom rejects, whatever the title, the
    scope and the container; the [SlaPageTitle] it is meant to generalise
    renders its text. *)
Theorem PageTitle_cannot_be_rendered (props : ThinkingInReact05.IProps)
  (scope : Scope (Handler Empty_set)) (page : Dom.World) (stack : nat)
  (tagName : string) (attributes : list (string * string))
  (childNodes : list Dom.Node) :
  let container := Dom.ElementNode tagName attributes childNodes in
  ReactDom.render scope page stack (ThinkingInReact05.PageTitle props page)
    (Some container)
  = Js.Throw (Js.ObjectsAreNotValidAsAReactChild ["title"]) /\
  ReactDom.render scope page stack (ThinkingInReact05.SlaPageTitle tt page)
    (Some container)
  = Js.Normal
      {| ReactDom.container := container;
         ReactDom.content :=
           Host "div" [("style", PStyle [("fontSize", "40px")])]
             [Text "SLA list"] |}.
Proof. intros container. destruct stack; split; reflexivity. Qed.

(* ================================================================== *)
(** * 02-Detective.tsx: from the list to the page *)
(* ================================================================== *)

(** X15: the props a parent writes on a [<Detective />] element are the
    ones the child renders: with the names of 02-Detective.tsx in scope the
    element renders to the child's line for that name and that count, and
    [DetectivesList] to its two lines in order.  Each takes one component
    call on the stack. *)
Theorem Detective_props_reach_the_page (name : string) (casesSolved : Js.number)
  (key : option string) (page : Dom.World) (stack : nat) :
  ReactDom.renderTree Detective02.scope page (S stack)
    (Component "Detective" key
       [("name", PString name); ("casesSolved", PNumber casesSolved)])
  = Js.Normal
      (Host "div" []
         [Text ("I'm " ++ name ++ ". I've solved "
                  ++ Js.numberToString casesSolved ++ " cases.")]) /\
  ReactDom.renderTree Detective02.scope page (S stack)
    (Detective02.DetectivesList tt page)
  = Js.Normal
      (Host "div" []
         [ Host "div" [] [Text "I'm Sherlock Holmes. I've solved 27 cases."];
           Host "div" [] [Text "I'm CID Daya. I've solved 0 cases."] ]) /\
  ReactDom.renderTree Detective02.scope page 0
    (Detective02.DetectivesList tt page)
  = Js.Throw Js.RangeError.
Proof. destruct stack; repeat split. Qed.

(* ================================================================== *)
(** * README.tsx and index.tsx: the missing container *)
(* ================================================================== *)

(** X14: what the top level of README.tsx and of index.tsx does is decided
    by the lookup of 'root' alone: where it finds an element the tree is
    mounted in it, where it finds none [render] throws; index.tsx needs
    room on the stack for its one component call. *)
Theorem top_level_throws_exactly_without_root (w : Dom.World) (stack : nat) :
  Readme.main stack w
  = match Dom.getElementById w "root" with
    | Some node =>
        Js.Normal
          {| ReactDom.container := node;
             ReactDom.content :=
               Host "h1" [("id", PString "title")] [Text "Hello, World!"] |}
    | None => Js.Throw Js.TargetContainerIsNotADomElement
    end /\
  Index.main Sherlock01.Sherlock (S stack) w
  = match Dom.getElementById w "root" with
    | Some node =>
        Js.Normal
          {| ReactDom.container := node;
             ReactDom.content :=
               Host "div" []
                 [Text "Hi, My name is Sherlock Holmes. I've solved 27 cases."] |}
    | None => Js.Throw Js.TargetContainerIsNotADomElement
    end /\
  Index.main Sherlock01.Sherlock 0 w
  = match Dom.getElementById w "root" with
    | Some node => Js.Throw Js.RangeError
    | None => Js.Throw Js.TargetContainerIsNotADomElement
    end.
Proof.
  unfold Readme.main, Index.main.
  destruct (Dom.getElementById w "root") as [node |] eqn:Hfind.
  - rewrite <- Hfind at 1 2 3.
    rewrite !(render_into_found _ _ _ _ _ node Hfind).
    destruct stack; repeat split.
  - repeat split.
Qed.
